(** * Recommendation composition engine: offline lookup, online assembly, blend

    Shallow embedding of [recommendations_service.py].  Track and user
    identifiers are Python integers ([Z]); similarity scores are JSON numbers,
    modelled as exact rationals ([Q]) because the code only ever compares them.
    Python exceptions are explicit: every function that can raise returns a
    [result], and each [try]/[except] of the source is a [match] on it. *)

From Stdlib Require Import ZArith QArith Lia.
From stdpp Require Import gmap strings list sorting.

#[local] Set Warnings "-clear-no-such-hyp".
Local Open Scope Z_scope.

(** ** Exceptions *)

Module Py.

(** The exception classes that the modelled code can meet.  All of them derive
    from [Exception]; only [KeyError] is ever caught by name. *)
Inductive exn : Type :=
  | KeyError
  | IndexError
  | AttributeError
  | RequestException
  | JSONDecodeError
  | HTTPException (status_code : Z).

Inductive result (A : Type) : Type :=
  | Ok (a : A)
  | Raise (e : exn).
Arguments Ok {A} a.
Arguments Raise {A} e.

Definition bind {A B : Type} (m : result A) (f : A → result B) : result B :=
  match m with
  | Ok a => f a
  | Raise e => Raise e
  end.

(** [try: body / except Exception: handler]. *)
Definition try_except {A : Type} (body : result A) (handler : exn → result A)
  : result A :=
  match body with
  | Ok a => Ok a
  | Raise e => handler e
  end.

(** [xs[:k]] for an arbitrary Python integer [k]: a negative bound counts from
    the end of the list. *)
Definition slice_to {A : Type} (xs : list A) (k : Z) : list A :=
  if k <? 0 then take (length xs - Z.to_nat (- k))%nat xs
  else take (Z.to_nat k) xs.

(** [xs[m:]] for [0 <= m]. *)
Definition slice_from {A : Type} (xs : list A) (m : nat) : list A := drop m xs.

(** [xs[i]] for [0 <= i]: out of range raises. *)
Definition getitem {A : Type} (xs : list A) (i : nat) : result A :=
  match xs !! i with
  | Some x => Ok x
  | None => Raise IndexError
  end.

End Py.

Import Py.

#[global] Instance result_bind : MBind result := λ A B f m, Py.bind m f.

(** ** [dedup_ids] *)

(** The definition in force (the second [def dedup_ids] of the module, which
    rebinds the name): a comprehension filtering on a growing [seen] set.
    [id in seen or seen.add(id)] is true when [id] was seen, and otherwise adds
    it and yields [None], so the element is kept. *)
Fixpoint dedup_ids_from (seen : gset Z) (ids : list Z) : list Z :=
  match ids with
  | [] => []
  | id :: rest =>
      if decide (id ∈ seen) then dedup_ids_from seen rest
      else id :: dedup_ids_from ({[ id ]} ∪ seen) rest
  end.

Definition dedup_ids (ids : list Z) : list Z := dedup_ids_from ∅ ids.

(** The first [def dedup_ids] of the module (shadowed by the one above): an
    explicit loop appending to [result]. *)
Definition dedup_ids_step (st : gset Z * list Z) (id : Z) : gset Z * list Z :=
  let '(seen, result) := st in
  if decide (id ∈ seen) then (seen, result)
  else ({[ id ]} ∪ seen, result ++ [id]).

Definition dedup_ids_loop (ids : list Z) : list Z :=
  (foldl dedup_ids_step (∅, []) ids).2.

(** ** The blend of [recommendations] *)

(** [for i in range(min_length)]: [i] is the current index, [todo] the number
    of iterations left. *)
Fixpoint interleave_loop (offline online : list Z) (i todo : nat)
    (recs_blended : list Z) : result (list Z) :=
  match todo with
  | O => Ok recs_blended
  | S todo' =>
      a ← getitem offline i;
      b ← getitem online i;
      interleave_loop offline online (S i) todo' (recs_blended ++ [a; b])
  end.

Definition blend (recs_offline recs_online : list Z) (k : Z)
  : result (list Z) :=
  let min_length := Nat.min (length recs_offline) (length recs_online) in
  recs_blended ← interleave_loop recs_offline recs_online 0 min_length [];
  let recs_blended := recs_blended ++ slice_from recs_offline min_length in
  let recs_blended := recs_blended ++ slice_from recs_online min_length in
  let recs_blended := dedup_ids recs_blended in
  Ok (slice_to recs_blended k).

(** ** The offline store: [class Recommendations] *)

(** A row of a pandas [DataFrame] holding recommendations.  [idx] is the row's
    index label: the [user_id] once [load] has called [set_index("user_id")] on
    the personal table, the row number for the default table. *)
Record row : Type := Row { idx : Z; track_id : Z; track_seq : Z }.

(** What [df.loc[label]] evaluates to.  pandas raises [KeyError] when no row
    carries the label, returns the row itself (a [Series] whose labels are the
    column names) when exactly one row does, and a [DataFrame] of the matching
    rows otherwise. *)
Inductive loc_value : Type :=
  | LocSeries (r : row)
  | LocFrame (rows : list row).

Definition loc (df : list row) (label : Z) : result loc_value :=
  match filter (λ r, idx r = label) df with
  | [] => Raise KeyError
  | [r] => Ok (LocSeries r)
  | rows => Ok (LocFrame rows)
  end.

(** [recs["track_id"].to_list()]: a column of a [DataFrame] is a [Series] and
    has [to_list]; an entry of a row [Series] is a numpy scalar, which has no
    such attribute. *)
Definition track_id_to_list (recs : loc_value) : result (list Z) :=
  match recs with
  | LocFrame rows => Ok (track_id <$> rows)
  | LocSeries _ => Raise AttributeError
  end.

Record stats : Type := Stats {
  request_personal_count : Z;
  request_default_count : Z
}.

Record Recommendations : Type := MkRecommendations {
  _recs : gmap string (list row);
  _stats : stats
}.

(** [self._recs[rec_type]]: a missing key of a [dict] raises. *)
Definition recs_getitem (self : Recommendations) (rec_type : string)
  : result (list row) :=
  match _recs self !! rec_type with
  | Some df => Ok df
  | None => Raise KeyError
  end.

Definition Recommendations_init : Recommendations :=
  MkRecommendations ∅ (Stats 0 0).

(** [load]: [table] is what [pd.read_parquet] produced, already re-indexed by
    [user_id] when [rec_type] is ["personal"]. *)
Definition Recommendations_load (self : Recommendations) (rec_type : string)
    (table : list row) : Recommendations :=
  MkRecommendations (<[rec_type := table]> (_recs self)) (_stats self).

Definition count_personal (self : Recommendations) : Recommendations :=
  MkRecommendations (_recs self)
    (Stats (request_personal_count (_stats self) + 1)
           (request_default_count (_stats self))).

Definition count_default (self : Recommendations) : Recommendations :=
  MkRecommendations (_recs self)
    (Stats (request_personal_count (_stats self))
           (request_default_count (_stats self) + 1)).

(** [Recommendations.get]: the counters are mutated in place, so the store is
    returned along with the outcome. *)
Definition Recommendations_get (self : Recommendations) (user_id k : Z)
  : Recommendations * result (list Z) :=
  let try_body :=
    personal ← recs_getitem self "personal";
    recs ← loc personal user_id;
    recs ← track_id_to_list recs;
    Ok (slice_to recs k) in
  match try_body with
  | Ok recs => (count_personal self, Ok recs)
  | Raise KeyError =>
      match recs_getitem self "default" with
      | Ok recs => (count_default self, Ok (slice_to (track_id <$> recs) k))
      | Raise e => (self, Raise e)
      end
  | Raise _ => (self, Ok [])
  end.

(** ** The upstream services, as seen through [requests.post] *)

(** A [requests.Response]: its status code and what [resp.json()] gives. *)
Record response (A : Type) : Type := Response {
  status_code : Z;
  json : result A
}.
Arguments Response {A} status_code json.
Arguments status_code {A} r.
Arguments json {A} r.

(** The JSON object of the history service; [None] is an absent key. *)
Record history_json : Type := HistoryJson {
  h_track_id : option (list Z)
}.

(** The JSON object of the features service: candidate identifiers under
    ["item_id_2"] and their scores under ["track_seq"]. *)
Record similar_json : Type := SimilarJson {
  item_id_2 : option (list Z);
  s_track_seq : option (list Q)
}.

(** [d.get(key, [])]. *)
Definition get_or_empty {A : Type} (field : option (list A)) : list A :=
  default [] field.

Record upstream : Type := Upstream {
  (** [requests.post(HISTORY_STORE_URL/get, params={user_id, k})] *)
  post_history : Z → Z → result (response history_json);
  (** [requests.post(FEATURES_STORE_URL/similar_items, params={item_id, k})] *)
  post_similar_items : Z → Z → result (response similar_json)
}.

(** ** Online assembly: [recommendations_online] *)

(** One iteration of [for track_id in events], with its own [try]/[except]:
    a raising call, a status other than 200 or an unreadable body leaves
    [items] and [scores] as they were ([continue]). *)
Definition similar_items_step (up : upstream) (k : Z)
    (acc : list Z * list Q) (track_id : Z) : list Z * list Q :=
  let '(items, scores) := acc in
  let try_body :=
    similar_items_resp ← post_similar_items up track_id k;
    if decide (status_code similar_items_resp ≠ 200) then Ok None
    else
      item_similar_items ← json similar_items_resp;
      Ok (Some item_similar_items) in
  match try_body with
  | Ok (Some item_similar_items) =>
      (items ++ get_or_empty (item_id_2 item_similar_items),
       scores ++ get_or_empty (s_track_seq item_similar_items))
  | Ok None => (items, scores)
  | Raise _ => (items, scores)
  end.

Definition fan_out (up : upstream) (k : Z) (events : list Z)
  : list Z * list Q :=
  foldl (similar_items_step up k) ([], []) events.

(** [x[1] < y[1]] on scores. *)
Definition score_lt (x y : Q) : bool := negb (Qle_bool y x).

(** [sorted(combined, key=lambda x: x[1], reverse=True)].  Python's [sorted] is
    a stable sort and [reverse=True] keeps elements with equal keys in their
    original order; an insertion sort that puts each pair in front of the first
    pair whose score is not strictly greater computes exactly that list. *)
Fixpoint insert_by_score (p : Z * Q) (l : list (Z * Q)) : list (Z * Q) :=
  match l with
  | [] => [p]
  | q :: l' =>
      if score_lt p.2 q.2 then q :: insert_by_score p l' else p :: q :: l'
  end.

Definition sorted_by_score_desc (combined : list (Z * Q)) : list (Z * Q) :=
  foldr insert_by_score [] combined.

(** [combined = list(zip(items, scores))] after the fan-out. *)
Definition pooled (up : upstream) (k : Z) (events : list Z) : list (Z * Q) :=
  let '(items, scores) := fan_out up k events in zip items scores.

Definition recommendations_online_body (up : upstream) (user_id k : Z)
  : result (list Z) :=
  resp ← post_history up user_id 3;
  if decide (status_code resp ≠ 200) then Ok []
  else
    events ← json resp;
    let events := get_or_empty (h_track_id events) in
    match events with
    | [] => Ok []
    | _ =>
        let combined := pooled up k events in
        let combined := sorted_by_score_desc combined in
        let combined := combined.*1 in
        let recs := dedup_ids combined in
        Ok recs
    end.

(** The endpoint: the whole body sits in [try] / [except Exception], whose
    handler returns [{"recs": []}]. *)
Definition recommendations_online (up : upstream) (user_id k : Z)
  : result (list Z) :=
  try_except (recommendations_online_body up user_id k) (λ _, Ok []).

(** ** The endpoints [recommendations_offline] and [recommendations] *)

Definition recommendations_offline (recs : Recommendations) (user_id k : Z)
  : Recommendations * result (list Z) :=
  Recommendations_get recs user_id k.

(** [recommendations]: both sub-results are lists by construction, so the two
    [isinstance] checks pass and their [raise HTTPException] is never reached;
    everything from the two calls to the final slice is under [try]. *)
Definition recommendations (recs : Recommendations) (up : upstream)
    (user_id k : Z) : Recommendations * result (list Z) :=
  let '(recs', offline_outcome) := recommendations_offline recs user_id k in
  let try_body :=
    recs_offline ← offline_outcome;
    recs_online ← recommendations_online up user_id k;
    blend recs_offline recs_online k in
  (recs', try_except try_body (λ _, Ok [])).

(** ** Vocabulary for the properties *)

(** The recency list the online assembly works from: the ["track_id"] field of
    a successful history response, and nothing otherwise. *)
Definition history_events (up : upstream) (user_id : Z) : list Z :=
  match post_history up user_id 3 with
  | Ok resp =>
      if decide (status_code resp ≠ 200) then []
      else match json resp with
           | Ok events => get_or_empty (h_track_id events)
           | Raise _ => []
           end
  | Raise _ => []
  end.

(** The list the online endpoint hands back when nothing raises. *)
Definition online_recs (up : upstream) (user_id k : Z) : list Z :=
  dedup_ids ((sorted_by_score_desc (pooled up k (history_events up user_id))).*1).

(** The similarity call for one track failed (raised, or answered with a
    status other than 200, or with an unreadable body) or returned no
    candidate. *)
Definition similar_failed_or_empty (r : result (response similar_json)) : bool :=
  match r with
  | Raise _ => true
  | Ok resp =>
      if decide (status_code resp ≠ 200) then true
      else match json resp with
           | Raise _ => true
           | Ok j => bool_decide (get_or_empty (item_id_2 j) = [])
           end
  end.

(** The pairs one history track contributes when its response is usable. *)
Definition similar_pairs (up : upstream) (k : Z) (track_id : Z) : list (Z * Q) :=
  let '(items, scores) := similar_items_step up k ([], []) track_id in
  zip items scores.

(** Every response lists as many scores as candidates. *)
Definition aligned (up : upstream) (k : Z) (events : list Z) : bool :=
  forallb (λ t, let '(items, scores) := similar_items_step up k ([], []) t in
                bool_decide (length items = length scores)) events.

(** A ranking in which no pair is followed by one of strictly greater score. *)
Definition score_ge (p q : Z * Q) : Prop := (q.2 <= p.2)%Q.

(** The pairs of a list whose score equals [s], in the order of the list. *)
Definition with_score (s : Q) (l : list (Z * Q)) : list (Z * Q) :=
  List.filter (λ p, Qeq_bool p.2 s) l.

(** The blend as the design document words it. *)
Module Design.

(** Steps 1 and 2: pairs [offline[i]], [online[i]] for [i] below the length of
    the shorter list. *)
Fixpoint alternate (offline online : list Z) : list Z :=
  match offline, online with
  | a :: offline', b :: online' => a :: b :: alternate offline' online'
  | _, _ => []
  end.

(** Step 3: the remainder of whichever list is longer. *)
Definition remainder_of_longer (offline online : list Z) : list Z :=
  let m := Nat.min (length offline) (length online) in
  if (length online <? length offline)%nat then drop m offline
  else drop m online.

(** Step 4: only the first occurrence of each identifier stays. *)
Fixpoint first_occurrences (ids : list Z) : list Z :=
  match ids with
  | [] => []
  | id :: rest => id :: filter (λ x, x ≠ id) (first_occurrences rest)
  end.

(** Steps 1 to 3: the order before deduplication. *)
Definition interleaved (offline online : list Z) : list Z :=
  alternate offline online ++ remainder_of_longer offline online.

(** Steps 1 to 5. *)
Definition blended (offline online : list Z) (k : nat) : list Z :=
  take k (first_occurrences (interleaved offline online)).

End Design.

(** ** Concrete stores and upstream services used in the examples *)

Module Fixtures.

(** A history service that knows user 7 (tracks 1 then 2) and a features
    service that honours the requested limit [k = 1]: one candidate a track. *)
Definition two_track_upstream : upstream :=
  Upstream
    (λ user_id _,
       if decide (user_id = 7)
       then Ok (Response 200 (Ok (HistoryJson (Some [1; 2]))))
       else Ok (Response 200 (Ok (HistoryJson (Some [])))))
    (λ item_id _,
       if decide (item_id = 1)
       then Ok (Response 200 (Ok (SimilarJson (Some [10]) (Some [9 # 10]%Q))))
       else if decide (item_id = 2)
       then Ok (Response 200 (Ok (SimilarJson (Some [20]) (Some [8 # 10]%Q))))
       else Ok (Response 200 (Ok (SimilarJson (Some []) (Some []))))).

(** User 7 has a history, but the features service is down in four different
    ways, one per track. *)
Definition features_down_upstream : upstream :=
  Upstream
    (λ _ _, Ok (Response 200 (Ok (HistoryJson (Some [1; 2; 3])))))
    (λ item_id _,
       if decide (item_id = 1) then Raise RequestException
       else if decide (item_id = 2) then Ok (Response 503 (Raise JSONDecodeError))
       else if decide (item_id = 3) then Ok (Response 200 (Raise JSONDecodeError))
       else Ok (Response 200 (Ok (SimilarJson (Some []) (Some []))))).

(** Nothing answers at all. *)
Definition dead_upstream : upstream :=
  Upstream (λ _ _, Raise RequestException) (λ _ _, Raise RequestException).

(** Three candidates share the score 1/2 (also written 2/4). *)
Definition ties_upstream : upstream :=
  Upstream
    (λ _ _, Ok (Response 200 (Ok (HistoryJson (Some [1; 2])))))
    (λ item_id _,
       if decide (item_id = 1)
       then Ok (Response 200
                  (Ok (SimilarJson (Some [10; 11]) (Some [1 # 2; 3 # 4]%Q))))
       else Ok (Response 200
                  (Ok (SimilarJson (Some [20; 21]) (Some [2 # 4; 1 # 2]%Q))))).

(** A store as [lifespan] builds it: user 2 has three personal rows, user 5
    has a single one, everybody else falls back on the default table. *)
Definition personal_table : list row :=
  [Row 2 100 1; Row 2 101 2; Row 2 102 3; Row 5 200 1].

Definition default_table : list row :=
  [Row 0 900 1; Row 1 901 2; Row 2 902 3; Row 3 903 4].

Definition rec_store : Recommendations :=
  Recommendations_load
    (Recommendations_load Recommendations_init "personal" personal_table)
    "default" default_table.

(** A store on which only the personal table was loaded. *)
Definition personal_only_store : Recommendations :=
  Recommendations_load Recommendations_init "personal" personal_table.

End Fixtures.

Import Fixtures.

(** ** Further vocabulary *)

(** The store [lifespan] puts in [app.state.recs]: a fresh [Recommendations],
    the personal table loaded first, the default table second. *)
Definition lifespan_store (personal default : list row) : Recommendations :=
  Recommendations_load
    (Recommendations_load Recommendations_init "personal" personal)
    "default" default.

(** The similarity call for one track gave nothing usable: it raised, or
    answered with a status other than 200, or with an unreadable body. *)
Definition similar_failed (r : result (response similar_json)) : bool :=
  match r with
  | Raise _ => true
  | Ok resp =>
      if decide (status_code resp ≠ 200) then true
      else match json resp with
           | Raise _ => true
           | Ok _ => false
           end
  end.

(** The history call raised, answered with a status other than 200 or with an
    unreadable body, or carried no track. *)
Definition history_failed_or_empty (r : result (response history_json)) : bool :=
  match r with
  | Raise _ => true
  | Ok resp =>
      if decide (status_code resp ≠ 200) then true
      else match json resp with
           | Raise _ => true
           | Ok j => bool_decide (get_or_empty (h_track_id j) = [])
           end
  end.

(** ** pandas, as far as the two lookup services use it *)

Module Pandas.

(** How a [try] body ends, as its handlers tell the cases apart: it returned,
    it raised [KeyError], or it raised some other [Exception]. *)
Inductive attempt (A : Type) : Type :=
  | Returned (a : A)
  | RaisedKeyError
  | RaisedOther.
Arguments Returned {A} a.
Arguments RaisedKeyError {A}.
Arguments RaisedOther {A}.

(** [df.loc[label]] on a table indexed by [index]: [KeyError] without a
    matching row, the row itself (a [Series]) with exactly one, a [DataFrame]
    of the matching rows otherwise. *)
Inductive selection (R : Type) : Type :=
  | OneRow (r : R)
  | Rows (rows : list R).
Arguments OneRow {R} r.
Arguments Rows {R} rows.

Definition loc {R : Type} (index : R → Z) (df : list R) (label : Z)
  : attempt (selection R) :=
  match filter (λ r, index r = label) df with
  | [] => RaisedKeyError
  | [r] => Returned (OneRow r)
  | rows => Returned (Rows rows)
  end.

(** [df.head(n)]: the first [n] rows, and for a negative [n] all rows but the
    last [|n|], as [df[:n]]. *)
Definition head {R : Type} (rows : list R) (n : Z) : list R := slice_to rows n.

End Pandas.

(** ** The history service: [history_service.py] *)

Module HistoryService.

Record stats : Type := Stats { request_count : Z; not_found_count : Z }.

(** [_history] is [None] until [load] has run. *)
Record History : Type := MkHistory {
  _history : option (list row);
  _stats : stats
}.

(** The answer: a dictionary with the keys ["track_id"] and ["track_seq"]. *)
Record answer : Type := Answer { a_track_id : list Z; a_track_seq : list Z }.

Definition History_init : History := MkHistory None (Stats 0 0).

(** [load]: [table] is the parquet file re-indexed by [user_id]. *)
Definition load (self : History) (table : list row) : History :=
  MkHistory (Some table) (_stats self).

Definition count_request (self : History) : History :=
  MkHistory (_history self)
    (Stats (request_count (_stats self) + 1) (not_found_count (_stats self))).

Definition count_not_found (self : History) : History :=
  MkHistory (_history self)
    (Stats (request_count (_stats self)) (not_found_count (_stats self) + 1)).

(** The [try] body of [get].  [None.loc] raises [AttributeError]; on a single
    row, [history[[...]].head(k)] is still a [Series], whose [to_dict] takes no
    [orient] argument and raises [TypeError]; on a [DataFrame],
    [to_dict(orient="list")] gives one list per column. *)
Definition get_body (self : History) (user_id k : Z) : Pandas.attempt answer :=
  match _history self with
  | None => Pandas.RaisedOther
  | Some table =>
      match Pandas.loc idx table user_id with
      | Pandas.Returned (Pandas.Rows history) =>
          let result := Pandas.head history k in
          Pandas.Returned (Answer (track_id <$> result) (track_seq <$> result))
      | Pandas.Returned (Pandas.OneRow _) => Pandas.RaisedOther
      | Pandas.RaisedKeyError => Pandas.RaisedKeyError
      | Pandas.RaisedOther => Pandas.RaisedOther
      end
  end.

(** [History.get]: the request is counted before the [try]; both handlers
    return the empty answer, only the [KeyError] one counts a miss. *)
Definition get (self : History) (user_id k : Z) : History * answer :=
  let self := count_request self in
  match get_body self user_id k with
  | Pandas.Returned result => (self, result)
  | Pandas.RaisedKeyError => (count_not_found self, Answer [] [])
  | Pandas.RaisedOther => (self, Answer [] [])
  end.

(** The endpoint [get_history]: [get] is called under [try]; its handler,
    which answers with status 500, has nothing to catch. *)
Definition get_history (history : History) (user_id k : Z)
  : History * result answer :=
  let '(history', answer) := get history user_id k in (history', Ok answer).

End HistoryService.

(** ** The features service: [features_service.py] *)

Module FeaturesService.

(** A row of the similarity table once indexed by [item_id_1]; the column
    ["track_seq"] holds the score. *)
Record sim_row : Type := SimRow { item_id_1 : Z; item_id_2 : Z; track_seq : Q }.

Record stats : Type := Stats { request_count : Z; not_found_count : Z }.

Record SimilarItems : Type := MkSimilarItems {
  _similar_items : option (list sim_row);
  _stats : stats
}.

Record answer : Type := Answer { a_item_id_2 : list Z; a_track_seq : list Q }.

Definition SimilarItems_init : SimilarItems := MkSimilarItems None (Stats 0 0).

Definition load (self : SimilarItems) (table : list sim_row) : SimilarItems :=
  MkSimilarItems (Some table) (_stats self).

Definition count_request (self : SimilarItems) : SimilarItems :=
  MkSimilarItems (_similar_items self)
    (Stats (request_count (_stats self) + 1) (not_found_count (_stats self))).

Definition count_not_found (self : SimilarItems) : SimilarItems :=
  MkSimilarItems (_similar_items self)
    (Stats (request_count (_stats self)) (not_found_count (_stats self) + 1)).

Definition get_body (self : SimilarItems) (item_id k : Z) : Pandas.attempt answer :=
  match _similar_items self with
  | None => Pandas.RaisedOther
  | Some table =>
      match Pandas.loc item_id_1 table item_id with
      | Pandas.Returned (Pandas.Rows similar_items) =>
          let result := Pandas.head similar_items k in
          Pandas.Returned (Answer (item_id_2 <$> result) (track_seq <$> result))
      | Pandas.Returned (Pandas.OneRow _) => Pandas.RaisedOther
      | Pandas.RaisedKeyError => Pandas.RaisedKeyError
      | Pandas.RaisedOther => Pandas.RaisedOther
      end
  end.

Definition get (self : SimilarItems) (item_id k : Z) : SimilarItems * answer :=
  let self := count_request self in
  match get_body self item_id k with
  | Pandas.Returned result => (self, result)
  | Pandas.RaisedKeyError => (count_not_found self, Answer [] [])
  | Pandas.RaisedOther => (self, Answer [] [])
  end.

(** The endpoint [similar_items]. *)
Definition similar_items (sim_items : SimilarItems) (item_id k : Z)
  : SimilarItems * result answer :=
  let '(sim_items', answer) := get sim_items item_id k in (sim_items', Ok answer).

End FeaturesService.

(** ** The three services together *)

(** What [requests.post] sees when both lookup services are up: an endpoint
    that returns answers with status 200 and its dictionary as JSON, one that
    raises [HTTPException] with status 500 and a body without the expected
    keys.  The counters the services keep do not enter their answers. *)
Definition running_upstream (history : HistoryService.History)
    (sim_items : FeaturesService.SimilarItems) : upstream :=
  Upstream
    (λ user_id k,
       match (HistoryService.get_history history user_id k).2 with
       | Ok a => Ok (Response 200
                       (Ok (HistoryJson (Some (HistoryService.a_track_id a)))))
       | Raise _ => Ok (Response 500 (Ok (HistoryJson None)))
       end)
    (λ item_id k,
       match (FeaturesService.similar_items sim_items item_id k).2 with
       | Ok a => Ok (Response 200
                       (Ok (SimilarJson (Some (FeaturesService.a_item_id_2 a))
                                        (Some (FeaturesService.a_track_seq a)))))
       | Raise _ => Ok (Response 500 (Ok (SimilarJson None None)))
       end).

Module ServiceFixtures.

(** User 7 listened to four tracks, user 8 to a single one. *)
Definition history_table : list row :=
  [Row 7 1 1; Row 7 2 2; Row 7 3 3; Row 7 4 4; Row 8 1 1].

Definition history_store : HistoryService.History :=
  HistoryService.load HistoryService.History_init history_table.

(** Tracks 1 and 2 have three similar tracks each, track 3 a single one. *)
Definition similar_table : list FeaturesService.sim_row :=
  [FeaturesService.SimRow 1 10 (9 # 10); FeaturesService.SimRow 1 11 (8 # 10);
   FeaturesService.SimRow 1 12 (7 # 10);
   FeaturesService.SimRow 2 20 (6 # 10); FeaturesService.SimRow 2 10 (5 # 10);
   FeaturesService.SimRow 2 21 (4 # 10);
   FeaturesService.SimRow 3 30 (1 # 1)]%Q.

Definition sim_items_store : FeaturesService.SimilarItems :=
  FeaturesService.load FeaturesService.SimilarItems_init similar_table.

Definition services : upstream := running_upstream history_store sim_items_store.

(** The features service is reachable for track 2 only. *)
Definition flaky_upstream : upstream :=
  Upstream
    (λ _ _, Ok (Response 200 (Ok (HistoryJson (Some [1; 2; 3])))))
    (λ item_id _,
       if decide (item_id = 2)
       then Ok (Response 200
                  (Ok (SimilarJson (Some [20; 21]) (Some [6 # 10; 4 # 10]%Q))))
       else if decide (item_id = 1) then Raise RequestException
       else Ok (Response 503 (Raise JSONDecodeError))).

End ServiceFixtures.

Import ServiceFixtures.

(** * Properties *)

(** Closes a decidable goal on concrete data by evaluation. *)
Ltac decide_by_computation :=
  apply (bool_decide_unpack _); vm_compute; exact I.

(** ** Slices *)

Section Slices.
Context {A : Type}.
Implicit Types (xs : list A) (k : Z).

Lemma slice_to_nonneg xs k : 0 ≤ k → slice_to xs k = take (Z.to_nat k) xs.
Proof.
  intros Hk. unfold slice_to.
  destruct (Z.ltb_spec k 0) as [Hneg|_]; [lia | reflexivity].
Qed.

Lemma slice_to_prefix xs k : ∃ n, slice_to xs k = take n xs.
Proof. unfold slice_to. destruct (k <? 0); eauto. Qed.

Lemma slice_to_length xs k : 0 ≤ k → (length (slice_to xs k) ≤ Z.to_nat k)%nat.
Proof. intros Hk. rewrite slice_to_nonneg, length_take by done. lia. Qed.

Lemma slice_to_zero xs : slice_to xs 0 = [].
Proof. reflexivity. Qed.

Lemma slice_to_elem_of xs k x : x ∈ slice_to xs k → x ∈ xs.
Proof.
  destruct (slice_to_prefix xs k) as [n ->]. apply subseteq_take.
Qed.

Lemma slice_to_NoDup xs k : NoDup xs → NoDup (slice_to xs k).
Proof.
  destruct (slice_to_prefix xs k) as [n ->].
  intros Hnd. eapply sublist_NoDup; [done | apply sublist_take].
Qed.

Lemma slice_to_cons x xs k : 1 ≤ k → slice_to (x :: xs) k = x :: slice_to xs (k - 1).
Proof.
  intros Hk. rewrite !slice_to_nonneg by lia.
  replace (Z.to_nat k) with (S (Z.to_nat (k - 1))) by lia. reflexivity.
Qed.
End Slices.

(** ** [dedup_ids] keeps exactly the first occurrences *)

Section Dedup.
Implicit Types (seen : gset Z) (ids : list Z).

Lemma dedup_ids_from_first_occurrences seen ids :
  dedup_ids_from seen ids = filter (λ x, x ∉ seen) (Design.first_occurrences ids).
Proof.
  revert seen. induction ids as [|id rest IH]; intros seen; simpl; [done|].
  rewrite filter_cons. destruct (decide (id ∈ seen)) as [Hin|Hnotin].
  - rewrite decide_False by tauto. rewrite IH, list_filter_filter.
    apply list_filter_iff. intros x. split; [|tauto].
    intros Hx. split; [done|]. intros ->. done.
  - rewrite decide_True by done. f_equal.
    rewrite IH, list_filter_filter. apply list_filter_iff. set_solver.
Qed.

Lemma dedup_ids_first_occurrences ids :
  dedup_ids ids = Design.first_occurrences ids.
Proof.
  unfold dedup_ids. rewrite dedup_ids_from_first_occurrences.
  induction (Design.first_occurrences ids) as [|x l IH]; [done|].
  rewrite filter_cons, decide_True by set_solver. by f_equal.
Qed.

Lemma elem_of_dedup_ids_from seen ids x :
  x ∈ dedup_ids_from seen ids ↔ x ∈ ids ∧ x ∉ seen.
Proof.
  revert seen. induction ids as [|id rest IH]; intros seen; simpl.
  - set_solver.
  - destruct (decide (id ∈ seen)).
    + rewrite IH, elem_of_cons. split; [tauto|].
      intros [[->|Hx] Hseen]; [done | tauto].
    + rewrite !elem_of_cons, IH, not_elem_of_union, not_elem_of_singleton.
      split; [intros [->|(? & ? & ?)]; tauto|].
      intros [[->|Hx] Hseen]; [tauto|].
      destruct (decide (x = id)); tauto.
Qed.

Lemma NoDup_dedup_ids_from seen ids : NoDup (dedup_ids_from seen ids).
Proof.
  revert seen. induction ids as [|id rest IH]; intros seen; simpl.
  - constructor.
  - destruct (decide (id ∈ seen)); [apply IH|].
    constructor; [|apply IH]. rewrite elem_of_dedup_ids_from. set_solver.
Qed.

Lemma elem_of_dedup_ids ids x : x ∈ dedup_ids ids ↔ x ∈ ids.
Proof. unfold dedup_ids. rewrite elem_of_dedup_ids_from. set_solver. Qed.

Lemma NoDup_dedup_ids ids : NoDup (dedup_ids ids).
Proof. apply NoDup_dedup_ids_from. Qed.

Lemma dedup_ids_from_NoDup seen ids :
  NoDup ids → (∀ x, x ∈ ids → x ∉ seen) → dedup_ids_from seen ids = ids.
Proof.
  intros Hnd. revert seen. induction Hnd as [|id rest Hid Hnd IH]; intros seen Hseen.
  - done.
  - simpl. rewrite decide_False by set_solver. f_equal.
    apply IH. intros x Hx. set_solver.
Qed.

Lemma dedup_ids_NoDup ids : NoDup ids → dedup_ids ids = ids.
Proof. intros. apply dedup_ids_from_NoDup; set_solver. Qed.

Lemma dedup_ids_cons id rest :
  dedup_ids (id :: rest) = id :: dedup_ids_from {[ id ]} rest.
Proof.
  unfold dedup_ids. simpl. rewrite decide_False by set_solver.
  by rewrite (right_id_L ∅ (∪)).
Qed.

Lemma dedup_ids_from_seen seen id rest :
  id ∈ seen → dedup_ids_from seen (id :: rest) = dedup_ids_from seen rest.
Proof. intros Hin. simpl. by rewrite decide_True. Qed.

(** The loop of the shadowed definition computes the same list. *)
Lemma dedup_ids_loop_from seen result ids :
  (foldl dedup_ids_step (seen, result) ids).2 = result ++ dedup_ids_from seen ids.
Proof.
  revert seen result. induction ids as [|id rest IH]; intros seen result; simpl.
  - by rewrite app_nil_r.
  - destruct (decide (id ∈ seen)); [apply IH|].
    rewrite IH, <- app_assoc. done.
Qed.

Lemma dedup_ids_loop_eq ids : dedup_ids_loop ids = dedup_ids ids.
Proof. unfold dedup_ids_loop. by rewrite dedup_ids_loop_from. Qed.
End Dedup.

(** ** The interleaving loop and the list handed to [dedup_ids] *)

Section Blend.
Implicit Types (offline online : list Z) (k : Z).

Lemma getitem_lookup {A : Type} (xs : list A) (i : nat) (x : A) :
  xs !! i = Some x → getitem xs i = Ok x.
Proof. unfold getitem. by intros ->. Qed.

(** Inside its range the loop never raises, and appends the pairs in order. *)
Lemma interleave_loop_in_range offline online todo i acc :
  (i + todo ≤ length offline)%nat → (i + todo ≤ length online)%nat →
  interleave_loop offline online i todo acc =
    Ok (acc ++ Design.alternate (take todo (drop i offline))
                                (take todo (drop i online))).
Proof.
  revert i acc. induction todo as [|todo IH]; intros i acc Hoff Hon.
  - simpl. by rewrite app_nil_r.
  - destruct (lookup_lt_is_Some_2 offline i) as [a Ha]; [lia|].
    destruct (lookup_lt_is_Some_2 online i) as [b Hb]; [lia|].
    simpl. rewrite (getitem_lookup _ _ _ Ha), (getitem_lookup _ _ _ Hb).
    unfold mbind, result_bind, Py.bind.
    rewrite IH by lia.
    rewrite (drop_S _ _ _ Ha), (drop_S _ _ _ Hb). simpl.
    by rewrite <- app_assoc.
Qed.

Lemma alternate_take_min offline online :
  let m := Nat.min (length offline) (length online) in
  Design.alternate (take m offline) (take m online) =
  Design.alternate offline online.
Proof.
  revert online. induction offline as [|a offline IH]; intros [|b online]; simpl;
    try done.
  do 2 f_equal. apply IH.
Qed.

Lemma drops_remainder_of_longer offline online :
  let m := Nat.min (length offline) (length online) in
  drop m offline ++ drop m online = Design.remainder_of_longer offline online.
Proof.
  intros m. unfold Design.remainder_of_longer. fold m.
  destruct (Nat.ltb_spec (length online) (length offline)) as [Hlt|Hge].
  - rewrite (drop_ge online) by lia. apply app_nil_r.
  - by rewrite (drop_ge offline) by lia.
Qed.

Lemma blend_unfold offline online k :
  blend offline online k =
    Ok (slice_to (dedup_ids (Design.interleaved offline online)) k).
Proof.
  unfold blend, Design.interleaved, slice_from.
  rewrite interleave_loop_in_range by lia.
  unfold mbind, result_bind, Py.bind. rewrite !drop_0, alternate_take_min. simpl.
  by rewrite <- app_assoc, drops_remainder_of_longer.
Qed.

Lemma elem_of_alternate offline online x :
  x ∈ Design.alternate offline online → x ∈ offline ∨ x ∈ online.
Proof.
  revert online. induction offline as [|a offline IH]; intros [|b online]; simpl;
    try by (intros ?%elem_of_nil).
  rewrite !elem_of_cons. intros [->|[->|Hx]]; [tauto..|].
  destruct (IH _ Hx); tauto.
Qed.

Lemma elem_of_interleaved offline online x :
  x ∈ Design.interleaved offline online → x ∈ offline ∨ x ∈ online.
Proof.
  unfold Design.interleaved, Design.remainder_of_longer. rewrite elem_of_app.
  intros [Hx|Hx]; [by apply elem_of_alternate|].
  destruct (_ <? _)%nat; pose proof (subseteq_drop _ _ _ Hx); tauto.
Qed.

Lemma interleaved_cons a offline online :
  ∃ rest, Design.interleaved (a :: offline) online = a :: rest.
Proof. unfold Design.interleaved. destruct online; simpl; eauto. Qed.

Lemma interleaved_nil_r offline : Design.interleaved offline [] = offline.
Proof.
  unfold Design.interleaved, Design.remainder_of_longer.
  destruct offline as [|a offline]; [done|]. simpl. done.
Qed.

Lemma blend_NoDup offline online k :
  NoDup (slice_to (dedup_ids (Design.interleaved offline online)) k).
Proof. apply slice_to_NoDup, NoDup_dedup_ids. Qed.

Lemma blend_elem_of offline online k x :
  x ∈ slice_to (dedup_ids (Design.interleaved offline online)) k →
  x ∈ offline ∨ x ∈ online.
Proof.
  intros Hx. apply slice_to_elem_of in Hx. rewrite elem_of_dedup_ids in Hx.
  by apply elem_of_interleaved.
Qed.

Lemma blend_head a offline online k :
  1 ≤ k →
  ∃ rest, slice_to (dedup_ids (Design.interleaved (a :: offline) online)) k = a :: rest.
Proof.
  intros Hk. destruct (interleaved_cons a offline online) as [rest ->].
  rewrite dedup_ids_cons, slice_to_cons by done. eauto.
Qed.
End Blend.

(** ** [sorted(..., reverse=True)]: permutation, descending, stable *)

Section Sorting.
Implicit Types (p q : Z * Q) (l : list (Z * Q)) (s : Q).

Lemma score_lt_true x y : score_lt x y = true → (x < y)%Q.
Proof.
  unfold score_lt. intros H%negb_true_iff. apply Qnot_le_lt.
  intros Hle%Qle_bool_iff. congruence.
Qed.

Lemma score_lt_false x y : score_lt x y = false → (y <= x)%Q.
Proof. unfold score_lt. intros H%negb_false_iff. by apply Qle_bool_iff. Qed.

Lemma insert_by_score_perm p l : insert_by_score p l ≡ₚ p :: l.
Proof.
  induction l as [|q l IH]; simpl; [done|].
  destruct (score_lt p.2 q.2); [|done].
  rewrite IH. apply Permutation_swap.
Qed.

Lemma sorted_by_score_desc_perm l : sorted_by_score_desc l ≡ₚ l.
Proof.
  induction l as [|p l IH]; simpl; [done|].
  fold (sorted_by_score_desc l). by rewrite insert_by_score_perm, IH.
Qed.

Lemma insert_by_score_sorted p l :
  StronglySorted score_ge l → StronglySorted score_ge (insert_by_score p l).
Proof.
  induction 1 as [|q l Hl IH Hq]; simpl.
  - repeat constructor.
  - destruct (score_lt p.2 q.2) eqn:Hlt.
    + constructor; [done|].
      rewrite insert_by_score_perm. constructor; [|done].
      apply Qlt_le_weak. by apply score_lt_true.
    + apply score_lt_false in Hlt.
      constructor; [by constructor|]. constructor; [done|].
      eapply Forall_impl; [exact Hq|]. intros r Hr. unfold score_ge in *.
      by eapply Qle_trans.
Qed.

Lemma sorted_by_score_desc_sorted l :
  StronglySorted score_ge (sorted_by_score_desc l).
Proof.
  induction l as [|p l IH]; simpl; [constructor|].
  by apply insert_by_score_sorted.
Qed.

(** A pair jumps only over pairs of strictly greater score, so the pairs of
    any one score keep their order. *)
Lemma with_score_insert s p l :
  with_score s (insert_by_score p l) = with_score s (p :: l).
Proof.
  induction l as [|q l IH]; [done|]. simpl.
  destruct (score_lt p.2 q.2) eqn:Hlt; [|done].
  apply score_lt_true in Hlt. simpl. fold (with_score s (insert_by_score p l)).
  rewrite IH. simpl.
  destruct (Qeq_bool q.2 s) eqn:Hq, (Qeq_bool p.2 s) eqn:Hp; try done.
  apply Qeq_bool_iff in Hq, Hp. exfalso.
  apply (Qlt_irrefl s). by rewrite <- Hp at 1; rewrite <- Hq.
Qed.

Lemma sorted_by_score_desc_stable s l :
  with_score s (sorted_by_score_desc l) = with_score s l.
Proof.
  induction l as [|p l IH]; [done|]. simpl.
  fold (sorted_by_score_desc l). rewrite with_score_insert. simpl.
  fold (with_score s (sorted_by_score_desc l)) (with_score s l).
  by rewrite IH.
Qed.
End Sorting.

(** ** The fan-out over the history *)

Section FanOut.
Variable up : upstream.
Variable k : Z.
Implicit Types (events : list Z) (acc : list Z * list Q).

(** An iteration only appends to the two accumulators. *)
Lemma similar_items_step_app acc track_id :
  similar_items_step up k acc track_id =
    (acc.1 ++ (similar_items_step up k ([], []) track_id).1,
     acc.2 ++ (similar_items_step up k ([], []) track_id).2).
Proof.
  destruct acc as [items scores]. unfold similar_items_step. simpl.
  destruct (post_similar_items up track_id k) as [resp|e]; simpl.
  - destruct (decide (status_code resp ≠ 200)); simpl.
    + by rewrite !app_nil_r.
    + destruct (json resp); simpl; by rewrite ?app_nil_r.
  - by rewrite !app_nil_r.
Qed.

Lemma fan_out_from acc events :
  foldl (similar_items_step up k) acc events =
    (acc.1 ++ (fan_out up k events).1, acc.2 ++ (fan_out up k events).2).
Proof.
  unfold fan_out. revert acc.
  induction events as [|t events IH]; intros acc; cbn [foldl].
  - destruct acc. simpl. by rewrite !app_nil_r.
  - rewrite IH, (IH (similar_items_step _ _ ([], []) _)).
    rewrite (similar_items_step_app acc). cbn [fst snd].
    by rewrite !app_assoc.
Qed.

Lemma fan_out_cons track_id events :
  fan_out up k (track_id :: events) =
    ((similar_items_step up k ([], []) track_id).1 ++ (fan_out up k events).1,
     (similar_items_step up k ([], []) track_id).2 ++ (fan_out up k events).2).
Proof. unfold fan_out at 1. cbn [foldl]. apply fan_out_from. Qed.

(** A failed or empty call contributes no candidate. *)
Lemma similar_failed_or_empty_step track_id :
  similar_failed_or_empty (post_similar_items up track_id k) = true →
  (similar_items_step up k ([], []) track_id).1 = [].
Proof.
  unfold similar_failed_or_empty, similar_items_step.
  destruct (post_similar_items up track_id k) as [resp|e]; simpl; [|done].
  destruct (decide (status_code resp ≠ 200)); simpl; [done|].
  destruct (json resp); simpl; [|done].
  by intros ?%bool_decide_eq_true.
Qed.

Lemma fan_out_all_failed events :
  forallb (λ t, similar_failed_or_empty (post_similar_items up t k)) events = true →
  (fan_out up k events).1 = [].
Proof.
  induction events as [|t events IH]; [done|].
  cbn [forallb]. intros [Ht Hevents]%andb_true_iff.
  rewrite fan_out_cons. cbn [fst].
  by rewrite similar_failed_or_empty_step, IH.
Qed.

Lemma pooled_all_failed events :
  forallb (λ t, similar_failed_or_empty (post_similar_items up t k)) events = true →
  pooled up k events = [].
Proof.
  intros H%fan_out_all_failed. unfold pooled.
  destruct (fan_out up k events) as [items scores]. simpl in H. by subst.
Qed.

(** With as many scores as candidates in every response, the pool lists the
    pairs track after track in history order, each track's pairs in the
    order of its response. *)
Lemma pooled_in_history_order events :
  aligned up k events = true →
  pooled up k events = concat (similar_pairs up k <$> events).
Proof.
  induction events as [|t events IH]; [done|].
  unfold aligned. cbn [forallb fmap list_fmap concat].
  intros [Ht Hevents]%andb_true_iff.
  unfold pooled. rewrite fan_out_cons.
  unfold similar_pairs at 1.
  destruct (similar_items_step up k ([], []) t) as [items scores]. simpl.
  apply bool_decide_eq_true in Ht.
  rewrite (zip_with_app pair items _ scores _ Ht). f_equal.
  rewrite <- IH by done. unfold pooled.
  by destruct (fan_out up k events).
Qed.
End FanOut.

(** ** The endpoints *)

Section Endpoints.
Implicit Types (recs : Recommendations) (up : upstream) (user_id k : Z).

Lemma try_except_empty {A : Type} (body : result (list A)) :
  try_except body (λ _, Ok []) =
    Ok (match body with Ok r => r | Raise _ => [] end).
Proof. by destruct body. Qed.

(** What the body of [recommendations_online] returns when it returns. *)
Lemma recommendations_online_body_ok up user_id k r :
  recommendations_online_body up user_id k = Ok r → r = online_recs up user_id k.
Proof.
  unfold recommendations_online_body, online_recs, history_events.
  destruct (post_history up user_id 3) as [resp|e]; simpl; [|done].
  destruct (decide (status_code resp ≠ 200)); simpl; [by intros [= <-]|].
  destruct (json resp) as [events|e]; simpl; [|done].
  destruct (get_or_empty (h_track_id events)); by intros [= <-].
Qed.

(** When it raises, the recency list in use is empty. *)
Lemma recommendations_online_body_raise up user_id k e :
  recommendations_online_body up user_id k = Raise e → history_events up user_id = [].
Proof.
  unfold recommendations_online_body, history_events.
  destruct (post_history up user_id 3) as [resp|e']; simpl; [|done].
  destruct (decide (status_code resp ≠ 200)); simpl; [done|].
  destruct (json resp) as [events|e']; simpl; [|done].
  by destruct (get_or_empty (h_track_id events)).
Qed.

Lemma recommendations_online_eq up user_id k :
  recommendations_online up user_id k = Ok (online_recs up user_id k).
Proof.
  unfold recommendations_online. rewrite try_except_empty. f_equal.
  destruct (recommendations_online_body up user_id k) as [r|e] eqn:Hbody.
  - by apply recommendations_online_body_ok.
  - apply recommendations_online_body_raise in Hbody.
    unfold online_recs. by rewrite Hbody.
Qed.

Lemma recommendations_eq recs up user_id k :
  (recommendations recs up user_id k).2 =
    Ok (match (recommendations_offline recs user_id k).2 with
        | Ok recs_offline =>
            slice_to (dedup_ids (Design.interleaved recs_offline
                                   (online_recs up user_id k))) k
        | Raise _ => []
        end).
Proof.
  unfold recommendations.
  destruct (recommendations_offline recs user_id k) as [recs' [off|e]]; simpl;
    [|done].
  rewrite recommendations_online_eq. unfold mbind, result_bind. simpl.
  by rewrite blend_unfold.
Qed.

(** The three ways through [Recommendations.get]. *)
Lemma Recommendations_get_default recs user_id k personal default :
  _recs recs !! "personal" = Some personal →
  _recs recs !! "default" = Some default →
  filter (λ r, idx r = user_id) personal = [] →
  (Recommendations_get recs user_id k).2 = Ok (slice_to (track_id <$> default) k).
Proof.
  intros Hp Hd Hrows. unfold Recommendations_get, recs_getitem, loc.
  rewrite Hp. simpl. rewrite Hrows. simpl. by rewrite Hd.
Qed.

Lemma Recommendations_get_personal recs user_id k personal r1 r2 rows :
  _recs recs !! "personal" = Some personal →
  filter (λ r, idx r = user_id) personal = r1 :: r2 :: rows →
  (Recommendations_get recs user_id k).2 =
    Ok (slice_to (track_id <$> r1 :: r2 :: rows) k).
Proof.
  intros Hp Hrows. unfold Recommendations_get, recs_getitem, loc.
  rewrite Hp. simpl. by rewrite Hrows.
Qed.

Lemma Recommendations_get_single_row recs user_id k personal r :
  _recs recs !! "personal" = Some personal →
  filter (λ r, idx r = user_id) personal = [r] →
  (Recommendations_get recs user_id k).2 = Ok [].
Proof.
  intros Hp Hrows. unfold Recommendations_get, recs_getitem, loc.
  rewrite Hp. simpl. by rewrite Hrows.
Qed.
End Endpoints.

(** ** Worked examples *)

Example blend_interleave_example :
  blend [1; 2; 3] [7; 8] 10 = Ok [1; 7; 2; 8; 3].
Proof. reflexivity. Qed.

Example blend_dedup_example : blend [1; 2] [1; 3] 10 = Ok [1; 2; 3].
Proof. reflexivity. Qed.

(** A negative [k] is not rejected: the slice drops from the end. *)
Example blend_negative_k : blend [1; 2; 3] [7; 8] (-2) = Ok [1; 7; 2].
Proof. reflexivity. Qed.

(** Equal scores, whatever their spelling, keep the pooling order. *)
Example ranking_with_ties :
  sorted_by_score_desc (pooled ties_upstream 10 [1; 2]) =
    [(11, (3 # 4)%Q); (10, (1 # 2)%Q); (20, (2 # 4)%Q); (21, (1 # 2)%Q)].
Proof. reflexivity. Qed.

(** The exception paths of the model are live: the body of the online
    endpoint raises when the history service is unreachable, and the offline
    endpoint, which has no handler of its own, lets a [KeyError] through when
    the default table is missing. *)
Example history_outage_raises_in_body :
  recommendations_online_body dead_upstream 7 10 = Raise RequestException.
Proof. reflexivity. Qed.

Example offline_endpoint_raises :
  (recommendations_offline personal_only_store 1 2).2 = Raise KeyError.
Proof. reflexivity. Qed.

Example blended_endpoint_recovers :
  (recommendations personal_only_store dead_upstream 1 2).2 = Ok [].
Proof. reflexivity. Qed.

Example counters_follow_the_path :
  _stats (Recommendations_get rec_store 2 2).1 = Stats 1 0 ∧
  _stats (Recommendations_get rec_store 1 2).1 = Stats 0 1 ∧
  _stats (Recommendations_get rec_store 5 2).1 = Stats 0 0.
Proof. repeat split; reflexivity. Qed.

(** ** The claims *)

(** C1.  For [k >= 0] the blend computed by [recommendations] is the one the
    design describes: pairs [offline[i]], [online[i]] up to the length of the
    shorter list, then the remainder of the longer one, first occurrences only,
    first [k] entries; this holds of the inline blend for any two lists and of
    the endpoint for the lists its two sub-calls return.  With five distinct
    identifiers, [A,B,C] and [X,Y] give [A,X,B,Y,C] at [k = 10]; with three,
    [A,B] and [A,C] give [A,B,C] as soon as [k >= 3]. *)
Theorem blend_interleave_dedup_truncate :
  (∀ (offline online : list Z) (k : Z),
     0 ≤ k → blend offline online k = Ok (Design.blended offline online (Z.to_nat k)))
  ∧ (∀ recs up user_id k offline online,
       0 ≤ k →
       (recommendations_offline recs user_id k).2 = Ok offline →
       recommendations_online up user_id k = Ok online →
       (recommendations recs up user_id k).2 =
         Ok (Design.blended offline online (Z.to_nat k)))
  ∧ (∀ A B C X Y : Z,
       NoDup [A; B; C; X; Y] → blend [A; B; C] [X; Y] 10 = Ok [A; X; B; Y; C])
  ∧ (∀ (A B C : Z) (k : Z),
       NoDup [A; B; C] → 3 ≤ k → blend [A; B] [A; C] k = Ok [A; B; C]).
Proof.
  split; [|split; [|split]].
  - intros offline online k Hk. rewrite blend_unfold, slice_to_nonneg by done.
    by rewrite dedup_ids_first_occurrences.
  - intros recs up user_id k offline online Hk Hoff Hon.
    rewrite recommendations_eq, Hoff. rewrite recommendations_online_eq in Hon.
    injection Hon as ->. rewrite slice_to_nonneg by done.
    by rewrite dedup_ids_first_occurrences.
  - intros A B C X Y Hnd. rewrite blend_unfold.
    change (Design.interleaved [A; B; C] [X; Y]) with [A; X; B; Y; C].
    rewrite dedup_ids_NoDup; [done|].
    rewrite !NoDup_cons, !not_elem_of_cons in Hnd |- *. naive_solver.
  - intros A B C k Hnd Hk. rewrite blend_unfold.
    change (Design.interleaved [A; B] [A; C]) with [A; A; B; C].
    rewrite !NoDup_cons, !not_elem_of_cons in Hnd.
    rewrite dedup_ids_cons, dedup_ids_from_seen by set_solver.
    rewrite dedup_ids_from_NoDup.
    + rewrite slice_to_nonneg by lia. by rewrite take_ge by (simpl; lia).
    + rewrite !NoDup_cons, !not_elem_of_cons. naive_solver.
    + intros x. rewrite !elem_of_cons, not_elem_of_singleton. naive_solver.
Qed.

Lemma blend_interleave_dedup_truncate_witness :
  0 ≤ 10 ∧ NoDup [1; 2; 3; 7; 8] ∧ NoDup [1; 2; 3] ∧ 3 ≤ 3
  ∧ (recommendations_offline rec_store 7 3).2 = Ok [900; 901; 902]
  ∧ recommendations_online two_track_upstream 7 3 = Ok [10; 20]
  ∧ blend [1; 2; 3] [7; 8] 10 = Ok (Design.blended [1; 2; 3] [7; 8] (Z.to_nat 10))
  ∧ (recommendations rec_store two_track_upstream 7 3).2 =
      Ok (Design.blended [900; 901; 902] [10; 20] (Z.to_nat 3))
  ∧ blend [1; 2; 3] [7; 8] 10 = Ok [1; 7; 2; 8; 3]
  ∧ blend [1; 2] [1; 3] 3 = Ok [1; 2; 3].
Proof.
  destruct blend_interleave_dedup_truncate as (Hblend & Hendpoint & Hfive & Hthree).
  split; [lia|].
  split; [decide_by_computation|].
  split; [decide_by_computation|].
  split; [lia|]. split; [reflexivity|]. split; [reflexivity|].
  split; [|split; [|split]].
  - apply Hblend. lia.
  - apply Hendpoint; [lia | reflexivity | reflexivity].
  - apply Hfive. decide_by_computation.
  - apply Hthree; [|lia]. decide_by_computation.
Defined.

(** C2.  Whatever the two lists and whatever [k] (negative values included),
    the blended list has no repeated identifier; so has the list the
    [/recommendations] endpoint returns. *)
Theorem blend_no_duplicates :
  (∀ (offline online : list Z) (k : Z),
     ∃ r, blend offline online k = Ok r ∧ NoDup r)
  ∧ (∀ recs up user_id k,
       ∃ r, (recommendations recs up user_id k).2 = Ok r ∧ NoDup r).
Proof.
  split.
  - intros offline online k. rewrite blend_unfold.
    eexists; split; [done|]. apply blend_NoDup.
  - intros recs up user_id k. rewrite recommendations_eq.
    eexists; split; [done|].
    destruct (recommendations_offline recs user_id k).2; [|constructor].
    apply blend_NoDup.
Qed.

(** C3.  For [k >= 0] the blended list has at most [k] entries, and [k = 0]
    gives the empty list, for the inline blend and for the endpoint alike. *)
Theorem blend_length_bound recs up user_id (offline online : list Z) (k : Z) :
  0 ≤ k →
  (∃ r, blend offline online k = Ok r ∧ Z.of_nat (length r) ≤ k)
  ∧ blend offline online 0 = Ok []
  ∧ (∃ r, (recommendations recs up user_id k).2 = Ok r ∧ Z.of_nat (length r) ≤ k)
  ∧ (recommendations recs up user_id 0).2 = Ok [].
Proof.
  intros Hk. split; [|split; [|split]].
  - rewrite blend_unfold. eexists; split; [done|].
    pose proof (slice_to_length (dedup_ids (Design.interleaved offline online)) k Hk).
    lia.
  - by rewrite blend_unfold.
  - rewrite recommendations_eq. eexists; split; [done|].
    destruct (recommendations_offline recs user_id k).2 as [off|e]; [|simpl; lia].
    pose proof (slice_to_length
      (dedup_ids (Design.interleaved off (online_recs up user_id k))) k Hk).
    lia.
  - rewrite recommendations_eq.
    by destruct (recommendations_offline recs user_id 0).2.
Qed.

Lemma blend_length_bound_witness :
  0 ≤ 2
  ∧ (∃ r, blend [1; 2; 3] [7; 8] 2 = Ok r ∧ Z.of_nat (length r) ≤ 2)
  ∧ blend [1; 2; 3] [7; 8] 0 = Ok []
  ∧ (∃ r, (recommendations rec_store two_track_upstream 7 2).2 = Ok r
          ∧ Z.of_nat (length r) ≤ 2)
  ∧ (recommendations rec_store two_track_upstream 7 0).2 = Ok [].
Proof.
  split; [lia|].
  apply (blend_length_bound rec_store two_track_upstream 7 [1; 2; 3] [7; 8] 2).
  lia.
Defined.

(** C4.  The online endpoint does not cut its list to [k]: with two history
    tracks and one candidate for each, a request for [k = 1] receives two
    recommendations.  The limit [k] only reaches the features service, once
    per history track. *)
Theorem recommendations_online_exceeds_k :
  recommendations_online two_track_upstream 7 1 = Ok [10; 20]
  ∧ history_events two_track_upstream 7 = [1; 2]
  ∧ pooled two_track_upstream 1 [1; 2] = [(10, (9 # 10)%Q); (20, (8 # 10)%Q)].
Proof. repeat split; reflexivity. Qed.

(** C5.  When, for every track of the user's history, the similarity call
    raises, answers with a status other than 200 or with an unreadable body,
    or returns no candidate, the online endpoint returns the empty list and
    the blended endpoint returns the offline list, first occurrences only, cut
    by [[:k]] (its first [k] entries when [k >= 0]).  More generally the blend
    of any list with the empty online list is that list deduplicated and
    cut. *)
Theorem similarity_outage_falls_back_to_offline
    recs up user_id (k : Z) (recs_offline : list Z) :
  forallb (λ t, similar_failed_or_empty (post_similar_items up t k))
          (history_events up user_id) = true →
  (recommendations_offline recs user_id k).2 = Ok recs_offline →
  recommendations_online up user_id k = Ok []
  ∧ (recommendations recs up user_id k).2 =
      Ok (slice_to (Design.first_occurrences recs_offline) k)
  ∧ (0 ≤ k → (recommendations recs up user_id k).2 =
               Ok (take (Z.to_nat k) (Design.first_occurrences recs_offline)))
  ∧ blend recs_offline [] k = Ok (slice_to (Design.first_occurrences recs_offline) k).
Proof.
  intros Hfailed Hoff.
  assert (online_recs up user_id k = []) as Honline.
  { unfold online_recs. by rewrite pooled_all_failed. }
  assert ((recommendations recs up user_id k).2 =
            Ok (slice_to (Design.first_occurrences recs_offline) k)) as Hblended.
  { rewrite recommendations_eq, Hoff, Honline, interleaved_nil_r.
    by rewrite dedup_ids_first_occurrences. }
  split; [|split; [|split]].
  - by rewrite recommendations_online_eq, Honline.
  - done.
  - intros Hk. by rewrite Hblended, slice_to_nonneg.
  - by rewrite blend_unfold, interleaved_nil_r, dedup_ids_first_occurrences.
Qed.

Lemma similarity_outage_falls_back_to_offline_witness :
  forallb (λ t, similar_failed_or_empty (post_similar_items features_down_upstream t 2))
          (history_events features_down_upstream 2) = true
  ∧ (recommendations_offline rec_store 2 2).2 = Ok [100; 101]
  ∧ recommendations_online features_down_upstream 2 2 = Ok []
  ∧ (recommendations rec_store features_down_upstream 2 2).2 = Ok [100; 101].
Proof.
  split; [reflexivity|]. split; [reflexivity|].
  destruct (similarity_outage_falls_back_to_offline
              rec_store features_down_upstream 2 2 [100; 101])
    as (Honline & Hblended & _); [reflexivity | reflexivity |].
  split; [exact Honline | exact Hblended].
Defined.

(** C6.  A user with exactly one personal row gets nothing from the offline
    lookup: [.loc[user_id]] is then a row ([Series]), the [to_list] call
    raises [AttributeError], and the catch-all handler answers with the empty
    list, although the user's personal list is [[200]].  Users without any
    personal row get the default list cut to [k], users with two rows or more
    their own list cut to [k]. *)
Theorem Recommendations_get_single_row_user :
  loc personal_table 5 = Ok (LocSeries (Row 5 200 1))
  ∧ track_id_to_list (LocSeries (Row 5 200 1)) = Raise AttributeError
  ∧ (Recommendations_get rec_store 5 3).2 = Ok []
  ∧ (Recommendations_get rec_store 1 3).2 = Ok [900; 901; 902]
  ∧ (Recommendations_get rec_store 2 2).2 = Ok [100; 101].
Proof. repeat split; reflexivity. Qed.

(** C7.  Neither [/recommendations_online] nor [/recommendations] lets an
    exception out: whatever the store holds and whatever the two upstream
    services do (raise, answer with any status, send an unreadable body),
    both endpoints return a list. *)
Theorem endpoints_never_raise recs up user_id k :
  (∃ r, recommendations_online up user_id k = Ok r)
  ∧ (∃ r, (recommendations recs up user_id k).2 = Ok r).
Proof.
  split.
  - rewrite recommendations_online_eq. eauto.
  - rewrite recommendations_eq. eauto.
Qed.

(** C8.  The ranking of the pooled pairs is a permutation of the pool, in
    descending score order, and stable: for every score, the pairs carrying it
    come out in the order they went in.  It is the list the online endpoint
    deduplicates; and when every response lists as many scores as candidates,
    the pool holds the pairs history track after history track, each track's
    pairs in the order of its response. *)
Theorem online_ranking_stable_descending :
  (∀ combined : list (Z * Q),
     sorted_by_score_desc combined ≡ₚ combined
     ∧ StronglySorted score_ge (sorted_by_score_desc combined)
     ∧ ∀ s, with_score s (sorted_by_score_desc combined) = with_score s combined)
  ∧ (∀ up user_id k,
       recommendations_online up user_id k =
         Ok (dedup_ids ((sorted_by_score_desc
                           (pooled up k (history_events up user_id))).*1)))
  ∧ (∀ up k events,
       aligned up k events = true →
       pooled up k events = concat (similar_pairs up k <$> events)).
Proof.
  split; [|split].
  - intros combined. split; [|split].
    + apply sorted_by_score_desc_perm.
    + apply sorted_by_score_desc_sorted.
    + intros s. apply sorted_by_score_desc_stable.
  - intros up user_id k. apply recommendations_online_eq.
  - intros up k events. apply pooled_in_history_order.
Qed.

Lemma online_ranking_stable_descending_witness :
  aligned ties_upstream 10 [1; 2] = true
  ∧ pooled ties_upstream 10 [1; 2] =
      concat (similar_pairs ties_upstream 10 <$> [1; 2])
  ∧ with_score (1 # 2) (sorted_by_score_desc (pooled ties_upstream 10 [1; 2])) =
      with_score (1 # 2) (pooled ties_upstream 10 [1; 2]).
Proof.
  destruct online_ranking_stable_descending as (Hsort & _ & Hpool).
  split; [reflexivity|]. split.
  - apply Hpool. reflexivity.
  - apply Hsort.
Defined.

(** C9.  With a non-empty offline list and [k >= 1], the blended list starts
    with the first offline entry, whatever the online list is. *)
Theorem blend_offline_first recs up user_id (a : Z) (offline online : list Z) (k : Z) :
  1 ≤ k →
  (∃ rest, blend (a :: offline) online k = Ok (a :: rest))
  ∧ ((recommendations_offline recs user_id k).2 = Ok (a :: offline) →
     ∃ rest, (recommendations recs up user_id k).2 = Ok (a :: rest)).
Proof.
  intros Hk. split.
  - rewrite blend_unfold. destruct (blend_head a offline online k Hk) as [rest ->].
    eauto.
  - intros Hoff. rewrite recommendations_eq, Hoff.
    destruct (blend_head a offline (online_recs up user_id k) k Hk) as [rest ->].
    eauto.
Qed.

Lemma blend_offline_first_witness :
  1 ≤ 1
  ∧ (recommendations_offline rec_store 7 1).2 = Ok [900]
  ∧ (∃ rest, blend [900] [10; 20] 1 = Ok (900 :: rest))
  ∧ (∃ rest, (recommendations rec_store two_track_upstream 7 1).2 = Ok (900 :: rest)).
Proof.
  split; [lia|]. split; [reflexivity|].
  destruct (blend_offline_first rec_store two_track_upstream 7 900 [] [10; 20] 1)
    as [Hblend Hendpoint]; [lia|].
  split; [exact Hblend | apply Hendpoint; reflexivity].
Defined.

(** C10.  Every identifier of the blended list comes from the offline list or
    from the online list, whatever [k]; for the endpoint these are the lists
    its two sub-calls returned. *)
Theorem blend_no_fabricated_id :
  (∀ (offline online : list Z) (k : Z),
     ∃ r, blend offline online k = Ok r
          ∧ ∀ x, x ∈ r → x ∈ offline ∨ x ∈ online)
  ∧ (∀ recs up user_id k offline online r x,
       (recommendations_offline recs user_id k).2 = Ok offline →
       recommendations_online up user_id k = Ok online →
       (recommendations recs up user_id k).2 = Ok r →
       x ∈ r → x ∈ offline ∨ x ∈ online).
Proof.
  split.
  - intros offline online k. rewrite blend_unfold.
    eexists; split; [done|]. intros x. apply blend_elem_of.
  - intros recs up user_id k offline online r x Hoff Hon.
    rewrite recommendations_eq, Hoff. rewrite recommendations_online_eq in Hon.
    injection Hon as <-. intros [= <-]. apply blend_elem_of.
Qed.

Lemma blend_no_fabricated_id_witness :
  (recommendations_offline rec_store 7 3).2 = Ok [900; 901; 902]
  ∧ recommendations_online two_track_upstream 7 3 = Ok [10; 20]
  ∧ (recommendations rec_store two_track_upstream 7 3).2 = Ok [900; 10; 901]
  ∧ 10 ∈ [900; 10; 901]
  ∧ (10 ∈ [900; 901; 902] ∨ 10 ∈ [10; 20]).
Proof.
  split; [reflexivity|]. split; [reflexivity|]. split; [reflexivity|].
  assert (10 ∈ [900; 10; 901]) as Hin.
  { decide_by_computation. }
  split; [exact Hin|].
  apply (proj2 blend_no_fabricated_id rec_store two_track_upstream 7 3
           [900; 901; 902] [10; 20] [900; 10; 901] 10);
    [reflexivity | reflexivity | reflexivity | exact Hin].
Defined.

(** * Further properties of the code *)

(** ** More on [dedup_ids] and on the blend *)

Section BlendMore.
Implicit Types (seen : gset Z) (ids offline online : list Z) (k : Z).

Lemma dedup_ids_from_sublist seen ids : dedup_ids_from seen ids `sublist_of` ids.
Proof.
  revert seen. induction ids as [|id rest IH]; intros seen; simpl.
  - constructor.
  - destruct (decide (id ∈ seen)); [apply sublist_cons | apply sublist_skip];
      apply IH.
Qed.

Lemma length_dedup_ids ids : (length (dedup_ids ids) ≤ length ids)%nat.
Proof. apply sublist_length, dedup_ids_from_sublist. Qed.

Lemma interleaved_nil_l online : Design.interleaved [] online = online.
Proof. reflexivity. Qed.

Lemma interleaved_cons_cons a b offline online :
  Design.interleaved (a :: offline) (b :: online) =
    a :: b :: Design.interleaved offline online.
Proof. reflexivity. Qed.

Lemma interleaved_perm offline online :
  Design.interleaved offline online ≡ₚ offline ++ online.
Proof.
  revert online. induction offline as [|a offline IH]; intros [|b online].
  - done.
  - done.
  - by rewrite interleaved_nil_r, app_nil_r.
  - rewrite interleaved_cons_cons, IH. simpl.
    by rewrite <- Permutation_middle.
Qed.

Lemma length_interleaved offline online :
  length (Design.interleaved offline online) = (length offline + length online)%nat.
Proof. by rewrite interleaved_perm, length_app. Qed.

Lemma interleaved_lookup offline online i a b :
  offline !! i = Some a → online !! i = Some b →
  Design.interleaved offline online !! (2 * i)%nat = Some a
  ∧ Design.interleaved offline online !! S (2 * i) = Some b.
Proof.
  revert offline online.
  induction i as [|i IH]; intros [|a' offline] [|b' online] Ha Hb;
    try discriminate.
  - simpl in Ha, Hb. injection Ha as ->. injection Hb as ->. done.
  - rewrite interleaved_cons_cons.
    replace (2 * S i)%nat with (S (S (2 * i))) by lia.
    apply (IH offline online Ha Hb).
Qed.

Lemma slice_to_all {A : Type} (xs : list A) k :
  Z.of_nat (length xs) ≤ k → slice_to xs k = xs.
Proof. intros Hk. rewrite slice_to_nonneg by lia. apply take_ge. lia. Qed.

Lemma interleaved_NoDup offline online :
  NoDup offline → NoDup online → (∀ x, x ∈ offline → x ∉ online) →
  NoDup (Design.interleaved offline online).
Proof.
  intros Hoff Hon Hdisjoint. rewrite interleaved_perm. by apply NoDup_app.
Qed.
End BlendMore.

(** X1.  The two definitions of [dedup_ids] in the module, the loop that
    appends to [result] and the comprehension that rebinds the name, compute
    the same list. *)
Theorem dedup_ids_definitions_agree (ids : list Z) :
  dedup_ids_loop ids = dedup_ids ids.
Proof. apply dedup_ids_loop_eq. Qed.

(** X2.  [dedup_ids] leaves a list unchanged exactly when the list has no
    repeated identifier; applying it twice is the same as applying it once. *)
Theorem dedup_ids_fixed_point (ids : list Z) :
  (dedup_ids ids = ids ↔ NoDup ids)
  ∧ dedup_ids (dedup_ids ids) = dedup_ids ids.
Proof.
  split; [split|].
  - intros <-. apply NoDup_dedup_ids.
  - apply dedup_ids_NoDup.
  - apply dedup_ids_NoDup, NoDup_dedup_ids.
Qed.

(** X3.  [dedup_ids] only removes entries: its result is a subsequence of the
    input, never longer, and holds the same identifiers. *)
Theorem dedup_ids_subsequence (ids : list Z) :
  dedup_ids ids `sublist_of` ids
  ∧ (length (dedup_ids ids) ≤ length ids)%nat
  ∧ ∀ x, x ∈ dedup_ids ids ↔ x ∈ ids.
Proof.
  split; [apply dedup_ids_from_sublist|].
  split; [apply length_dedup_ids|]. intros x. apply elem_of_dedup_ids.
Qed.

(** X4.  With an empty offline list the blend is the online list,
    deduplicated and cut by [[:k]]; with both lists empty it is empty. *)
Theorem blend_empty_offline (online : list Z) (k : Z) :
  blend [] online k = Ok (slice_to (dedup_ids online) k)
  ∧ blend [] [] k = Ok [].
Proof.
  split.
  - by rewrite blend_unfold, interleaved_nil_l.
  - rewrite blend_unfold, interleaved_nil_l.
    change (dedup_ids []) with (@nil Z).
    destruct (slice_to_prefix (@nil Z) k) as [n ->]. by rewrite take_nil.
Qed.

(** X5.  When [k] is at least the combined length of the two lists, nothing
    is lost: every identifier of the offline list and every identifier of the
    online list is in the blended list. *)
Theorem blend_complete (offline online : list Z) (k x : Z) :
  Z.of_nat (length offline + length online) ≤ k →
  x ∈ offline ∨ x ∈ online →
  ∃ r, blend offline online k = Ok r ∧ x ∈ r.
Proof.
  intros Hk Hx. rewrite blend_unfold. eexists; split; [done|].
  rewrite slice_to_all.
  - rewrite elem_of_dedup_ids, interleaved_perm. by apply elem_of_app.
  - pose proof (length_dedup_ids (Design.interleaved offline online)) as Hlen.
    rewrite length_interleaved in Hlen. lia.
Qed.

Lemma blend_complete_witness :
  Z.of_nat (length [1; 2; 3] + length [3; 4]) ≤ 5
  ∧ (4 ∈ [1; 2; 3] ∨ 4 ∈ [3; 4])
  ∧ ∃ r, blend [1; 2; 3] [3; 4] 5 = Ok r ∧ 4 ∈ r.
Proof.
  assert (4 ∈ [1; 2; 3] ∨ 4 ∈ [3; 4]) as Hx.
  { right. decide_by_computation. }
  split; [simpl; lia|]. split; [exact Hx|].
  apply (blend_complete [1; 2; 3] [3; 4] 5 4); [simpl; lia | exact Hx].
Defined.

(** X6.  Asking for more never reorders what was already there: for
    [0 <= k <= k'] the blend of two lists at [k] is a prefix of their blend at
    [k']. *)
Theorem blend_prefix_monotone (offline online : list Z) (k k' : Z) :
  0 ≤ k → k ≤ k' →
  ∃ r r', blend offline online k = Ok r
          ∧ blend offline online k' = Ok r'
          ∧ r `prefix_of` r'.
Proof.
  intros Hk Hk'. rewrite !blend_unfold. do 2 eexists. split; [done|].
  split; [done|]. rewrite !slice_to_nonneg by lia.
  replace (Z.to_nat k) with (Z.to_nat k `min` Z.to_nat k')%nat by lia.
  rewrite <- take_take. apply prefix_take.
Qed.

Lemma blend_prefix_monotone_witness :
  0 ≤ 2 ∧ 2 ≤ 4
  ∧ ∃ r r', blend [1; 2; 3] [7; 8] 2 = Ok r
            ∧ blend [1; 2; 3] [7; 8] 4 = Ok r'
            ∧ r `prefix_of` r'.
Proof.
  split; [lia|]. split; [lia|].
  apply (blend_prefix_monotone [1; 2; 3] [7; 8] 2 4); lia.
Defined.

(** X7.  When neither list repeats an identifier and the two share none, the
    blend alternates strictly: for every index [i] present in both lists,
    the blended list holds [offline[i]] at position [2i] and [online[i]] at
    position [2i + 1], provided [k] reaches that far. *)
Theorem blend_alternates (offline online : list Z) (k : Z) (i : nat) (a b : Z) :
  NoDup offline → NoDup online → (∀ x, x ∈ offline → x ∉ online) →
  offline !! i = Some a → online !! i = Some b →
  Z.of_nat (2 * i + 1) < k →
  ∃ r, blend offline online k = Ok r
       ∧ r !! (2 * i)%nat = Some a ∧ r !! S (2 * i) = Some b.
Proof.
  intros Hoff Hon Hdisjoint Ha Hb Hk. rewrite blend_unfold.
  eexists; split; [done|].
  rewrite dedup_ids_NoDup by by apply interleaved_NoDup.
  rewrite slice_to_nonneg by lia. rewrite !lookup_take_lt by lia.
  by apply interleaved_lookup.
Qed.

Lemma blend_alternates_witness :
  NoDup [1; 2; 3] ∧ NoDup [7; 8] ∧ (∀ x : Z, x ∈ [1; 2; 3] → x ∉ [7; 8])
  ∧ [1; 2; 3] !! 1%nat = Some 2 ∧ [7; 8] !! 1%nat = Some 8
  ∧ Z.of_nat (2 * 1 + 1) < 10
  ∧ ∃ r, blend [1; 2; 3] [7; 8] 10 = Ok r
         ∧ r !! (2 * 1)%nat = Some 2 ∧ r !! S (2 * 1) = Some 8.
Proof.
  assert (NoDup [1; 2; 3]) as Hoff by decide_by_computation.
  assert (NoDup [7; 8]) as Hon by decide_by_computation.
  assert (∀ x : Z, x ∈ [1; 2; 3] → x ∉ [7; 8]) as Hdisjoint.
  { intros x Hx Hx'. apply list_elem_of_In in Hx. apply list_elem_of_In in Hx'.
    simpl in Hx, Hx'. lia. }
  split; [exact Hoff|]. split; [exact Hon|]. split; [exact Hdisjoint|].
  split; [reflexivity|]. split; [reflexivity|]. split; [simpl; lia|].
  apply (blend_alternates [1; 2; 3] [7; 8] 10 1 2 8 Hoff Hon Hdisjoint);
    [reflexivity | reflexivity | simpl; lia].
Defined.

(** X8.  A negative [k] is not rejected: the blend then returns the full
    deduplicated list without its last [|k|] entries (the empty list when it
    has no more than [|k|]). *)
Theorem blend_negative_k_drops_tail (offline online : list Z) (k : Z) :
  k < 0 →
  ∃ r full,
    blend offline online k = Ok r
    ∧ blend offline online (Z.of_nat (length offline + length online)) = Ok full
    ∧ r = take (length full - Z.to_nat (- k)) full
    ∧ Z.of_nat (length r) = Z.max 0 (Z.of_nat (length full) + k).
Proof.
  intros Hk. rewrite !blend_unfold.
  set (full := dedup_ids (Design.interleaved offline online)).
  exists (slice_to full k), full. split; [done|].
  assert (slice_to full k = take (length full - Z.to_nat (- k)) full) as Hslice.
  { unfold slice_to. by destruct (Z.ltb_spec k 0) as [_|?]; [|lia]. }
  split; [|split; [done|]].
  - f_equal. apply slice_to_all.
    pose proof (length_dedup_ids (Design.interleaved offline online)) as Hlen.
    rewrite length_interleaved in Hlen. subst full. lia.
  - rewrite Hslice, length_take. lia.
Qed.

Lemma blend_negative_k_drops_tail_witness :
  -2 < 0
  ∧ ∃ r full,
      blend [1; 2; 3] [7; 8] (-2) = Ok r
      ∧ blend [1; 2; 3] [7; 8] (Z.of_nat (length [1; 2; 3] + length [7; 8])) = Ok full
      ∧ r = take (length full - Z.to_nat (- -2)) full
      ∧ Z.of_nat (length r) = Z.max 0 (Z.of_nat (length full) + -2).
Proof.
  split; [lia|]. apply (blend_negative_k_drops_tail [1; 2; 3] [7; 8] (-2)). lia.
Defined.

(** ** More on the offline store *)

Section StoreMore.
Implicit Types (self : Recommendations) (user_id k : Z).

Lemma lifespan_store_personal personal default :
  _recs (lifespan_store personal default) !! "personal" = Some personal.
Proof.
  unfold lifespan_store, Recommendations_load. simpl.
  rewrite lookup_insert_ne by done. apply lookup_insert_eq.
Qed.

Lemma lifespan_store_default personal default :
  _recs (lifespan_store personal default) !! "default" = Some default.
Proof. unfold lifespan_store, Recommendations_load. simpl. apply lookup_insert_eq. Qed.

(** [get] is driven by two lookups and by the number of personal rows. *)
Lemma Recommendations_get_cases self user_id k :
  Recommendations_get self user_id k =
    match _recs self !! "personal" with
    | Some personal =>
        match filter (λ r, idx r = user_id) personal with
        | [] =>
            match _recs self !! "default" with
            | Some default =>
                (count_default self, Ok (slice_to (track_id <$> default) k))
            | None => (self, Raise KeyError)
            end
        | [_] => (self, Ok [])
        | rows => (count_personal self, Ok (slice_to (track_id <$> rows) k))
        end
    | None =>
        match _recs self !! "default" with
        | Some default =>
            (count_default self, Ok (slice_to (track_id <$> default) k))
        | None => (self, Raise KeyError)
        end
    end.
Proof.
  unfold Recommendations_get, recs_getitem, loc.
  destruct (_recs self !! "personal") as [personal|]; simpl.
  - destruct (filter (λ r, idx r = user_id) personal) as [|r1 [|r2 rows]]; simpl.
    + by destruct (_recs self !! "default").
    + done.
    + done.
  - by destruct (_recs self !! "default").
Qed.
End StoreMore.

(** X9.  [Recommendations.get], and with it the [/recommendations_offline]
    endpoint, raises exactly when the default table was never loaded and the
    user has no personal row (or the personal table is missing too); what it
    raises is [KeyError]. *)
Theorem Recommendations_get_raises_iff (self : Recommendations) (user_id k : Z) :
  ((∃ e, (recommendations_offline self user_id k).2 = Raise e)
   ↔ _recs self !! "default" = None
     ∧ ∀ personal, _recs self !! "personal" = Some personal →
                   filter (λ r, idx r = user_id) personal = [])
  ∧ ∀ e, (recommendations_offline self user_id k).2 = Raise e → e = KeyError.
Proof.
  unfold recommendations_offline. rewrite Recommendations_get_cases.
  destruct (_recs self !! "personal") as [personal|];
    [destruct (filter (λ r, idx r = user_id) personal) as [|r1 [|r2 rows]] eqn:Hrows|];
    destruct (_recs self !! "default") as [default|]; simpl;
    (split; [split|]);
    try (by intros [e [=]]); try (by intros [[=] _]); try (by intros e [=]);
    try (by intros e [= <-]).
  - intros _. split; [done|]. intros personal' Hsome.
    injection Hsome as <-. exact Hrows.
  - eauto.
  - intros [_ Hnone]. specialize (Hnone personal eq_refl). congruence.
  - intros [_ Hnone]. specialize (Hnone personal eq_refl). congruence.
  - eauto.
Qed.

(** X10.  A lookup never touches the tables and counts at most one request:
    either nothing changes, or the personal counter moves by one, or the
    default counter does.  A lookup that raises, and one whose error was
    swallowed into an empty answer for a user who has a personal row, count
    nothing. *)
Theorem Recommendations_get_counters (self : Recommendations) (user_id k : Z) :
  let self' := (Recommendations_get self user_id k).1 in
  let p := request_personal_count (_stats self) in
  let d := request_default_count (_stats self) in
  _recs self' = _recs self
  ∧ (_stats self' = _stats self ∨ _stats self' = Stats (p + 1) d
     ∨ _stats self' = Stats p (d + 1))
  ∧ (∀ e, (Recommendations_get self user_id k).2 = Raise e →
          _stats self' = _stats self)
  ∧ (∀ personal r, _recs self !! "personal" = Some personal →
                   filter (λ r, idx r = user_id) personal = [r] →
                   _stats self' = _stats self).
Proof.
  rewrite Recommendations_get_cases. simpl.
  destruct (_recs self !! "personal") as [personal|];
    [destruct (filter (λ r, idx r = user_id) personal) as [|r1 [|r2 rows]] eqn:Hrows|];
    destruct (_recs self !! "default") as [default|]; simpl;
    destruct (_stats self) as [p d]; simpl;
    (split; [done|]); (split; [tauto|]);
    (split; [by intros e [=] | try by intros ? ? [=]]);
    by intros ? ? [= <-]; rewrite Hrows.
Qed.

Lemma Recommendations_get_counters_witness :
  _recs (Recommendations_get rec_store 5 3).1 = _recs rec_store
  ∧ _stats (Recommendations_get rec_store 5 3).1 = _stats rec_store
  ∧ _stats (Recommendations_get rec_store 2 3).1 = Stats 1 0.
Proof.
  destruct (Recommendations_get_counters rec_store 5 3) as (Hrecs & _ & _ & Hone).
  split; [exact Hrecs|]. split; [|reflexivity].
  apply (Hone personal_table (Row 5 200 1)); reflexivity.
Defined.

(** X11.  For [k >= 0] an offline answer has at most [k] entries, and each of
    them is the [track_id] of a row of the default table or of a personal row
    of that very user. *)
Theorem Recommendations_get_bounded (self : Recommendations) (user_id k : Z)
    (r : list Z) :
  0 ≤ k →
  (Recommendations_get self user_id k).2 = Ok r →
  Z.of_nat (length r) ≤ k
  ∧ ∀ x, x ∈ r →
      ∃ rec_type table row,
        _recs self !! rec_type = Some table ∧ row ∈ table ∧ track_id row = x
        ∧ ((rec_type = "personal" ∧ idx row = user_id) ∨ rec_type = "default").
Proof.
  intros Hk. rewrite Recommendations_get_cases.
  assert (∀ rows : list row,
            Z.of_nat (length (slice_to (track_id <$> rows) k)) ≤ k) as Hlen.
  { intros rows. pose proof (slice_to_length (track_id <$> rows) k Hk). lia. }
  assert (∀ (rows : list row) x, x ∈ slice_to (track_id <$> rows) k →
            ∃ row, row ∈ rows ∧ track_id row = x) as Hmem.
  { intros rows x Hx%slice_to_elem_of. apply list_elem_of_fmap in Hx as (row & -> & Hrow).
    eauto. }
  destruct (_recs self !! "personal") as [personal|] eqn:Hp;
    [destruct (filter (λ r, idx r = user_id) personal) as [|r1 [|r2 rows]] eqn:Hrows|];
    destruct (_recs self !! "default") as [default|] eqn:Hd; cbn [snd];
    intros Hr; try discriminate Hr; injection Hr as <-.
  - split; [apply Hlen|]. intros x Hx. apply Hmem in Hx as (row & Hrow & <-).
    exists "default", default, row. tauto.
  - split; [simpl; lia|]. by intros x Hx%elem_of_nil.
  - split; [simpl; lia|]. by intros x Hx%elem_of_nil.
  - split; [apply (Hlen (r1 :: r2 :: rows))|]. intros x Hx.
    apply (Hmem (r1 :: r2 :: rows)) in Hx as (row & Hrow & <-).
    exists "personal", personal, row. rewrite <- Hrows in Hrow.
    apply list_elem_of_filter in Hrow as [Hidx Hrow]. tauto.
  - split; [apply (Hlen (r1 :: r2 :: rows))|]. intros x Hx.
    apply (Hmem (r1 :: r2 :: rows)) in Hx as (row & Hrow & <-).
    exists "personal", personal, row. rewrite <- Hrows in Hrow.
    apply list_elem_of_filter in Hrow as [Hidx Hrow]. tauto.
  - split; [apply Hlen|]. intros x Hx. apply Hmem in Hx as (row & Hrow & <-).
    exists "default", default, row. tauto.
Qed.

Lemma Recommendations_get_bounded_witness :
  0 ≤ 2
  ∧ (Recommendations_get rec_store 2 2).2 = Ok [100; 101]
  ∧ Z.of_nat (length [100; 101]) ≤ 2.
Proof.
  split; [lia|]. split; [reflexivity|].
  apply (Recommendations_get_bounded rec_store 2 2 [100; 101]); [lia | reflexivity].
Defined.

(** X12.  On the store [lifespan] builds, the offline lookup never raises and
    its answer depends only on the user's personal rows: none, the default
    list cut by [[:k]]; exactly one, the empty list; two or more, their
    [track_id]s in table order cut by [[:k]]. *)
Theorem lifespan_store_get (personal default : list row) (user_id k : Z) :
  (recommendations_offline (lifespan_store personal default) user_id k).2 =
    Ok (match filter (λ r, idx r = user_id) personal with
        | [] => slice_to (track_id <$> default) k
        | [_] => []
        | rows => slice_to (track_id <$> rows) k
        end).
Proof.
  unfold recommendations_offline.
  rewrite Recommendations_get_cases, lifespan_store_personal, lifespan_store_default.
  by destruct (filter (λ r, idx r = user_id) personal) as [|r1 [|r2 rows]].
Qed.

(** ** More on the online assembly *)

Section OnlineMore.
Variable up : upstream.
Variable k : Z.
Implicit Types (events : list Z) (acc : list Z * list Q).

Lemma similar_failed_step track_id :
  similar_failed (post_similar_items up track_id k) = true →
  similar_items_step up k ([], []) track_id = ([], []).
Proof.
  unfold similar_failed, similar_items_step.
  destruct (post_similar_items up track_id k) as [resp|e]; simpl; [|done].
  destruct (decide (status_code resp ≠ 200)); simpl; [done|].
  by destruct (json resp).
Qed.

Lemma fan_out_skip_failed events :
  fan_out up k events =
    fan_out up k
      (filter (λ t, similar_failed (post_similar_items up t k) = false) events).
Proof.
  induction events as [|t events IH]; [done|].
  rewrite filter_cons.
  destruct (similar_failed (post_similar_items up t k)) eqn:Hfailed.
  - rewrite decide_False by done. rewrite fan_out_cons, similar_failed_step by done.
    rewrite <- IH. simpl. by destruct (fan_out up k events).
  - rewrite decide_True by done. by rewrite !fan_out_cons, IH.
Qed.

(** A candidate of the fan-out was listed by a usable response to the call
    made for one of the tracks. *)
Lemma similar_items_step_elem_of track_id x :
  x ∈ (similar_items_step up k ([], []) track_id).1 →
  ∃ resp j, post_similar_items up track_id k = Ok resp
            ∧ status_code resp = 200 ∧ json resp = Ok j
            ∧ x ∈ get_or_empty (item_id_2 j).
Proof.
  unfold similar_items_step.
  destruct (post_similar_items up track_id k) as [resp|e]; simpl;
    [|by intros ?%elem_of_nil].
  destruct (decide (status_code resp ≠ 200)) as [|Hcode]; simpl;
    [by intros ?%elem_of_nil|].
  destruct (json resp) as [j|e] eqn:Hjson; simpl; [|by intros ?%elem_of_nil].
  intros Hx. exists resp, j. repeat split; try done.
  destruct (decide (status_code resp = 200)); [done|contradiction].
Qed.

Lemma fan_out_elem_of events x :
  x ∈ (fan_out up k events).1 →
  ∃ t, t ∈ events ∧ x ∈ (similar_items_step up k ([], []) t).1.
Proof.
  induction events as [|t events IH]; [by intros ?%elem_of_nil|].
  rewrite fan_out_cons. cbn [fst]. rewrite elem_of_app. intros [Hx|Hx].
  - exists t. split; [apply list_elem_of_here | done].
  - destruct (IH Hx) as (t' & Ht' & Hx'). exists t'.
    split; [by apply list_elem_of_further | done].
Qed.

Lemma fan_out_length events (n : nat) :
  (∀ t, t ∈ events → (length (similar_items_step up k ([], []) t).1 ≤ n)%nat) →
  (length (fan_out up k events).1 ≤ length events * n)%nat.
Proof.
  induction events as [|t events IH]; intros Hn; [simpl; lia|].
  rewrite fan_out_cons. cbn [fst]. rewrite length_app.
  change (length (t :: events)) with (S (length events)).
  rewrite Nat.mul_succ_l.
  pose proof (Hn t (list_elem_of_here _ _)).
  assert (length (fan_out up k events).1 ≤ length events * n)%nat.
  { apply IH. intros t' Ht'. apply Hn. by apply list_elem_of_further. }
  lia.
Qed.

Lemma pooled_elem_of events (p : Z * Q) :
  p ∈ pooled up k events → p.1 ∈ (fan_out up k events).1.
Proof.
  unfold pooled. destruct (fan_out up k events) as [items scores].
  destruct p as [x s]. apply elem_of_zip_l.
Qed.

Lemma pooled_length events :
  (length (pooled up k events) ≤ length (fan_out up k events).1)%nat.
Proof.
  unfold pooled. destruct (fan_out up k events) as [items scores].
  rewrite length_zip_with. simpl. lia.
Qed.
End OnlineMore.

Section RankingMore.
Implicit Types (p q : Z * Q) (l : list (Z * Q)).

(** The head of the ranking has a greatest score, and is the first pair of
    the pool that carries it. *)
Lemma sorted_by_score_desc_head l :
  l ≠ [] →
  ∃ p rest, sorted_by_score_desc l = p :: rest
            ∧ p ∈ l
            ∧ (∀ q, q ∈ l → (q.2 <= p.2)%Q)
            ∧ head (with_score p.2 l) = Some p.
Proof.
  intros Hl.
  destruct (sorted_by_score_desc l) as [|p rest] eqn:Hsorted.
  { destruct Hl. apply Permutation_nil_r. rewrite <- Hsorted.
    symmetry. apply sorted_by_score_desc_perm. }
  exists p, rest. split; [done|].
  pose proof (sorted_by_score_desc_perm l) as Hperm.
  pose proof (sorted_by_score_desc_sorted l) as Hdesc.
  pose proof (sorted_by_score_desc_stable p.2 l) as Hstable.
  rewrite Hsorted in Hperm, Hdesc, Hstable.
  split; [|split].
  - rewrite <- Hperm. apply list_elem_of_here.
  - intros q Hq. rewrite <- Hperm in Hq.
    apply elem_of_cons in Hq as [->|Hq]; [apply Qle_refl|].
    apply StronglySorted_inv in Hdesc as [_ Hall].
    rewrite Forall_forall in Hall. by apply Hall.
  - rewrite <- Hstable. unfold with_score. simpl.
    replace (Qeq_bool p.2 p.2) with true; [done|].
    symmetry. apply Qeq_bool_iff. reflexivity.
Qed.
End RankingMore.

(** X13.  When the history call raises, answers with a status other than 200
    or with an unreadable body, or carries no track, the online endpoint
    returns the empty list whatever the features service would say, and the
    blended endpoint returns the offline list, deduplicated and cut by
    [[:k]]. *)
Theorem history_outage_falls_back_to_offline
    recs up user_id (k : Z) (recs_offline : list Z) :
  history_failed_or_empty (post_history up user_id 3) = true →
  (recommendations_offline recs user_id k).2 = Ok recs_offline →
  recommendations_online up user_id k = Ok []
  ∧ (recommendations recs up user_id k).2 = Ok (slice_to (dedup_ids recs_offline) k).
Proof.
  intros Hfailed Hoff.
  assert (history_events up user_id = []) as Hevents.
  { unfold history_failed_or_empty in Hfailed. unfold history_events.
    destruct (post_history up user_id 3) as [resp|e]; [|done].
    destruct (decide (status_code resp ≠ 200)); [done|].
    destruct (json resp); [|done]. by apply bool_decide_eq_true in Hfailed. }
  assert (online_recs up user_id k = []) as Honline.
  { unfold online_recs. by rewrite Hevents. }
  split.
  - by rewrite recommendations_online_eq, Honline.
  - by rewrite recommendations_eq, Hoff, Honline, interleaved_nil_r.
Qed.

Lemma history_outage_falls_back_to_offline_witness :
  history_failed_or_empty (post_history dead_upstream 2 3) = true
  ∧ (recommendations_offline rec_store 2 2).2 = Ok [100; 101]
  ∧ recommendations_online dead_upstream 2 2 = Ok []
  ∧ (recommendations rec_store dead_upstream 2 2).2 =
      Ok (slice_to (dedup_ids [100; 101]) 2).
Proof.
  split; [reflexivity|]. split; [reflexivity|].
  apply (history_outage_falls_back_to_offline rec_store dead_upstream 2 2 [100; 101]);
    reflexivity.
Defined.

(** X14.  A similarity call that raises, answers with a status other than 200
    or with an unreadable body is skipped without a trace: the pool, and so
    the online list, is the one the remaining history tracks alone would
    give. *)
Theorem failed_similarity_calls_are_skipped up (k : Z) (events : list Z) :
  let usable :=
    filter (λ t, similar_failed (post_similar_items up t k) = false) events in
  pooled up k events = pooled up k usable
  ∧ dedup_ids ((sorted_by_score_desc (pooled up k events)).*1) =
    dedup_ids ((sorted_by_score_desc (pooled up k usable)).*1).
Proof.
  assert (pooled up k events =
          pooled up k (filter (λ t, similar_failed (post_similar_items up t k) = false)
                         events)) as Hpool.
  { unfold pooled. by rewrite <- fan_out_skip_failed. }
  simpl. split; [done|]. by rewrite <- Hpool.
Qed.

(** X15.  The online list has no repeated identifier, and each of its entries
    was listed under ["item_id_2"] by a response with status 200 and a
    readable body to the similarity call made for a track of the user's
    history. *)
Theorem online_recs_provenance up (user_id k : Z) :
  ∃ r, recommendations_online up user_id k = Ok r
       ∧ NoDup r
       ∧ ∀ x, x ∈ r →
           ∃ t resp j,
             t ∈ history_events up user_id
             ∧ post_similar_items up t k = Ok resp
             ∧ status_code resp = 200 ∧ json resp = Ok j
             ∧ x ∈ get_or_empty (item_id_2 j).
Proof.
  rewrite recommendations_online_eq. eexists; split; [done|].
  split; [apply NoDup_dedup_ids|].
  intros x Hx. unfold online_recs in Hx. rewrite elem_of_dedup_ids in Hx.
  apply list_elem_of_fmap in Hx as (p & -> & Hp).
  rewrite sorted_by_score_desc_perm in Hp.
  apply pooled_elem_of, fan_out_elem_of in Hp as (t & Ht & Hx).
  apply similar_items_step_elem_of in Hx as (resp & j & ? & ? & ? & ?).
  by exists t, resp, j.
Qed.

(** X16.  The online list is bounded by what the features service sends, not
    by [k] itself: if no history track gets more than [n] candidates, the list
    has at most [n] entries for each track of the history. *)
Theorem online_recs_length up (user_id k : Z) (n : nat) :
  (∀ t, t ∈ history_events up user_id →
        (length (similar_items_step up k ([], []) t).1 ≤ n)%nat) →
  ∃ r, recommendations_online up user_id k = Ok r
       ∧ (length r ≤ length (history_events up user_id) * n)%nat.
Proof.
  intros Hn. rewrite recommendations_online_eq. eexists; split; [done|].
  unfold online_recs.
  pose proof (length_dedup_ids
    ((sorted_by_score_desc (pooled up k (history_events up user_id))).*1)) as Hdedup.
  rewrite length_fmap in Hdedup.
  pose proof (Permutation_length
    (sorted_by_score_desc_perm (pooled up k (history_events up user_id)))).
  pose proof (pooled_length up k (history_events up user_id)).
  pose proof (fan_out_length up k (history_events up user_id) n Hn).
  lia.
Qed.

Lemma online_recs_length_witness :
  (∀ t, t ∈ history_events two_track_upstream 7 →
        (length (similar_items_step two_track_upstream 1 ([], []) t).1 ≤ 1)%nat)
  ∧ ∃ r, recommendations_online two_track_upstream 7 1 = Ok r
         ∧ (length r ≤ length (history_events two_track_upstream 7) * 1)%nat.
Proof.
  assert (∀ t, t ∈ history_events two_track_upstream 7 →
            (length (similar_items_step two_track_upstream 1 ([], []) t).1 ≤ 1)%nat)
    as Hn.
  { intros t Ht. change (history_events two_track_upstream 7) with [1; 2] in Ht.
    apply list_elem_of_In in Ht. simpl in Ht.
    destruct Ht as [<-|[<-|[]]]; vm_compute; lia. }
  split; [exact Hn|]. apply (online_recs_length two_track_upstream 7 1 1 Hn).
Defined.

(** X17.  When the pool is not empty, the first online recommendation is the
    candidate of a pair with the greatest score of the pool, and among the
    pairs with that score the one pooled first. *)
Theorem online_top_is_best up (user_id k : Z) :
  pooled up k (history_events up user_id) ≠ [] →
  ∃ p r,
    recommendations_online up user_id k = Ok (p.1 :: r)
    ∧ p ∈ pooled up k (history_events up user_id)
    ∧ (∀ q, q ∈ pooled up k (history_events up user_id) → (q.2 <= p.2)%Q)
    ∧ head (with_score p.2 (pooled up k (history_events up user_id))) = Some p.
Proof.
  intros Hpool.
  destruct (sorted_by_score_desc_head _ Hpool) as (p & rest & Hsorted & Hp & Hmax & Hfirst).
  exists p, (dedup_ids_from {[ p.1 ]} (rest.*1)).
  split; [|done].
  rewrite recommendations_online_eq. unfold online_recs. rewrite Hsorted.
  rewrite fmap_cons. by rewrite dedup_ids_cons.
Qed.

Lemma online_top_is_best_witness :
  pooled ties_upstream 10 (history_events ties_upstream 7) ≠ []
  ∧ ∃ p r,
      recommendations_online ties_upstream 7 10 = Ok (p.1 :: r)
      ∧ p ∈ pooled ties_upstream 10 (history_events ties_upstream 7)
      ∧ (∀ q, q ∈ pooled ties_upstream 10 (history_events ties_upstream 7) →
              (q.2 <= p.2)%Q)
      ∧ head (with_score p.2 (pooled ties_upstream 10 (history_events ties_upstream 7)))
        = Some p.
Proof.
  assert (pooled ties_upstream 10 (history_events ties_upstream 7) ≠ []) as Hpool.
  { vm_compute. discriminate. }
  split; [exact Hpool|]. apply (online_top_is_best ties_upstream 7 10 Hpool).
Defined.

(** ** The lookup services *)

Section Services.
Implicit Types (history : HistoryService.History)
  (sim_items : FeaturesService.SimilarItems) (user_id item_id k : Z).

(** The answer of [History.get], by cases on the user's rows. *)
Lemma History_get_answer history user_id k :
  (HistoryService.get history user_id k).2 =
    match HistoryService._history history with
    | Some table =>
        match filter (λ r, idx r = user_id) table with
        | [] | [_] => HistoryService.Answer [] []
        | rows =>
            HistoryService.Answer (track_id <$> slice_to rows k)
                                  (track_seq <$> slice_to rows k)
        end
    | None => HistoryService.Answer [] []
    end.
Proof.
  unfold HistoryService.get, HistoryService.get_body, Pandas.loc, Pandas.head.
  simpl. destruct (HistoryService._history history) as [table|]; [|done].
  by destruct (filter (λ r, idx r = user_id) table) as [|r1 [|r2 rows]].
Qed.

Lemma SimilarItems_get_answer sim_items item_id k :
  (FeaturesService.get sim_items item_id k).2 =
    match FeaturesService._similar_items sim_items with
    | Some table =>
        match filter (λ r, FeaturesService.item_id_1 r = item_id) table with
        | [] | [_] => FeaturesService.Answer [] []
        | rows =>
            FeaturesService.Answer
              (FeaturesService.item_id_2 <$> slice_to rows k)
              (FeaturesService.track_seq <$> slice_to rows k)
        end
    | None => FeaturesService.Answer [] []
    end.
Proof.
  unfold FeaturesService.get, FeaturesService.get_body, Pandas.loc, Pandas.head.
  simpl. destruct (FeaturesService._similar_items sim_items) as [table|]; [|done].
  by destruct (filter (λ r, FeaturesService.item_id_1 r = item_id) table)
    as [|r1 [|r2 rows]].
Qed.

Lemma slice_to_sublist {A : Type} (xs : list A) k : slice_to xs k `sublist_of` xs.
Proof. destruct (slice_to_prefix xs k) as [n ->]. apply sublist_take. Qed.

Lemma SimilarItems_get_aligned sim_items item_id k :
  length (FeaturesService.a_item_id_2 (FeaturesService.get sim_items item_id k).2) =
  length (FeaturesService.a_track_seq (FeaturesService.get sim_items item_id k).2).
Proof.
  rewrite SimilarItems_get_answer.
  destruct (FeaturesService._similar_items sim_items) as [table|]; [|done].
  destruct (filter _ table) as [|r1 [|r2 rows]]; try done.
  cbn [FeaturesService.a_item_id_2 FeaturesService.a_track_seq].
  by rewrite !length_fmap.
Qed.

Lemma SimilarItems_get_length sim_items item_id k :
  0 ≤ k →
  (length (FeaturesService.a_item_id_2 (FeaturesService.get sim_items item_id k).2)
   ≤ Z.to_nat k)%nat.
Proof.
  intros Hk. rewrite SimilarItems_get_answer.
  destruct (FeaturesService._similar_items sim_items) as [table|]; [|simpl; lia].
  destruct (filter _ table) as [|r1 [|r2 rows]]; try (simpl; lia).
  cbn [FeaturesService.a_item_id_2]. rewrite length_fmap.
  by apply slice_to_length.
Qed.

Lemma History_get_length history user_id k :
  0 ≤ k →
  (length (HistoryService.a_track_id (HistoryService.get history user_id k).2)
   ≤ Z.to_nat k)%nat.
Proof.
  intros Hk. rewrite History_get_answer.
  destruct (HistoryService._history history) as [table|]; [|simpl; lia].
  destruct (filter _ table) as [|r1 [|r2 rows]]; try (simpl; lia).
  cbn [HistoryService.a_track_id]. rewrite length_fmap.
  by apply slice_to_length.
Qed.

(** What the recommendations service reads from the two running services. *)
Lemma running_history_events history sim_items user_id :
  history_events (running_upstream history sim_items) user_id =
    HistoryService.a_track_id (HistoryService.get history user_id 3).2.
Proof.
  unfold history_events, running_upstream, HistoryService.get_history. simpl.
  by destruct (HistoryService.get history user_id 3).
Qed.

Lemma running_similar_items_step history sim_items k item_id :
  similar_items_step (running_upstream history sim_items) k ([], []) item_id =
    (FeaturesService.a_item_id_2 (FeaturesService.get sim_items item_id k).2,
     FeaturesService.a_track_seq (FeaturesService.get sim_items item_id k).2).
Proof.
  unfold similar_items_step, running_upstream, FeaturesService.similar_items.
  simpl. by destruct (FeaturesService.get sim_items item_id k).
Qed.

Lemma running_aligned history sim_items k events :
  aligned (running_upstream history sim_items) k events = true.
Proof.
  unfold aligned. apply forallb_forall. intros t _.
  rewrite running_similar_items_step. apply bool_decide_eq_true.
  apply SimilarItems_get_aligned.
Qed.
End Services.

(** X18.  An answer of [History.get] holds two lists of the same length, at
    most [k] entries long when [k >= 0], and its track list is a prefix of
    the user's tracks in table order. *)
Theorem History_get_shape (history : HistoryService.History) (user_id k : Z) :
  let a := (HistoryService.get history user_id k).2 in
  length (HistoryService.a_track_id a) = length (HistoryService.a_track_seq a)
  ∧ (0 ≤ k → Z.of_nat (length (HistoryService.a_track_id a)) ≤ k)
  ∧ ∀ table, HistoryService._history history = Some table →
      HistoryService.a_track_id a
        `prefix_of` (track_id <$> filter (λ r, idx r = user_id) table).
Proof.
  simpl. split; [|split].
  - rewrite History_get_answer.
    destruct (HistoryService._history history) as [table|]; [|done].
    destruct (filter _ table) as [|r1 [|r2 rows]]; try done.
    cbn [HistoryService.a_track_id HistoryService.a_track_seq].
    by rewrite !length_fmap.
  - intros Hk. pose proof (History_get_length history user_id k Hk). lia.
  - intros table Htable. rewrite History_get_answer, Htable.
    destruct (filter _ table) as [|r1 [|r2 rows]]; try apply prefix_nil.
    cbn [HistoryService.a_track_id].
    destruct (slice_to_prefix (r1 :: r2 :: rows) k) as [n ->].
    rewrite fmap_take. apply prefix_take.
Qed.

Lemma History_get_shape_witness :
  HistoryService._history history_store = Some history_table
  ∧ 0 ≤ 3
  ∧ Z.of_nat (length (HistoryService.a_track_id
                        (HistoryService.get history_store 7 3).2)) ≤ 3
  ∧ HistoryService.a_track_id (HistoryService.get history_store 7 3).2
      `prefix_of` (track_id <$> filter (λ r, idx r = 7) history_table).
Proof.
  destruct (History_get_shape history_store 7 3) as (_ & Hlen & Hprefix).
  split; [reflexivity|]. split; [lia|]. split; [apply Hlen; lia|].
  apply Hprefix. reflexivity.
Defined.

(** X19.  Both lookup services leave their table alone and count every
    request; a miss is counted only when the table is loaded and holds no row
    for the key, not when the lookup failed for another reason. *)
Theorem lookup_services_counters
    (history : HistoryService.History) (sim_items : FeaturesService.SimilarItems)
    (key k : Z) :
  let history' := (HistoryService.get history key k).1 in
  let sim_items' := (FeaturesService.get sim_items key k).1 in
  (HistoryService._history history' = HistoryService._history history
   ∧ HistoryService.request_count (HistoryService._stats history') =
       HistoryService.request_count (HistoryService._stats history) + 1
   ∧ HistoryService.not_found_count (HistoryService._stats history') =
       HistoryService.not_found_count (HistoryService._stats history)
       + match HistoryService._history history with
         | Some table =>
             match filter (λ r, idx r = key) table with [] => 1 | _ => 0 end
         | None => 0
         end)
  ∧ (FeaturesService._similar_items sim_items' =
       FeaturesService._similar_items sim_items
     ∧ FeaturesService.request_count (FeaturesService._stats sim_items') =
         FeaturesService.request_count (FeaturesService._stats sim_items) + 1
     ∧ FeaturesService.not_found_count (FeaturesService._stats sim_items') =
         FeaturesService.not_found_count (FeaturesService._stats sim_items)
         + match FeaturesService._similar_items sim_items with
           | Some table =>
               match filter (λ r, FeaturesService.item_id_1 r = key) table with
               | [] => 1
               | _ => 0
               end
           | None => 0
           end).
Proof.
  simpl. split.
  - unfold HistoryService.get, HistoryService.get_body, Pandas.loc. simpl.
    destruct (HistoryService._history history) as [table|] eqn:Htable; simpl;
      [|repeat split; first [done | lia]].
    destruct (filter _ table) as [|r1 [|r2 rows]]; simpl;
      repeat split; first [done | lia].
  - unfold FeaturesService.get, FeaturesService.get_body, Pandas.loc. simpl.
    destruct (FeaturesService._similar_items sim_items) as [table|] eqn:Htable;
      simpl; [|repeat split; first [done | lia]].
    destruct (filter _ table) as [|r1 [|r2 rows]]; simpl;
      repeat split; first [done | lia].
Qed.

(** X20.  An answer of [SimilarItems.get] holds as many scores as candidates,
    at most [k] of each when [k >= 0], and they are those of a prefix of the
    item's rows in table order. *)
Theorem SimilarItems_get_shape
    (sim_items : FeaturesService.SimilarItems) (item_id k : Z) :
  let a := (FeaturesService.get sim_items item_id k).2 in
  length (FeaturesService.a_item_id_2 a) = length (FeaturesService.a_track_seq a)
  ∧ (0 ≤ k → Z.of_nat (length (FeaturesService.a_item_id_2 a)) ≤ k)
  ∧ ∀ table, FeaturesService._similar_items sim_items = Some table →
      ∃ rows,
        rows `prefix_of` filter (λ r, FeaturesService.item_id_1 r = item_id) table
        ∧ FeaturesService.a_item_id_2 a = FeaturesService.item_id_2 <$> rows
        ∧ FeaturesService.a_track_seq a = FeaturesService.track_seq <$> rows.
Proof.
  simpl. split; [apply SimilarItems_get_aligned|]. split.
  - intros Hk. pose proof (SimilarItems_get_length sim_items item_id k Hk). lia.
  - intros table Htable. rewrite SimilarItems_get_answer, Htable.
    destruct (filter _ table) as [|r1 [|r2 rows]].
    + by exists [].
    + exists []. split; [apply prefix_nil | done].
    + exists (slice_to (r1 :: r2 :: rows) k). split; [|done].
      destruct (slice_to_prefix (r1 :: r2 :: rows) k) as [n ->]. apply prefix_take.
Qed.

Lemma SimilarItems_get_shape_witness :
  FeaturesService._similar_items sim_items_store = Some similar_table
  ∧ 0 ≤ 2
  ∧ Z.of_nat (length (FeaturesService.a_item_id_2
                        (FeaturesService.get sim_items_store 1 2).2)) ≤ 2
  ∧ FeaturesService.a_item_id_2 (FeaturesService.get sim_items_store 1 2).2 = [10; 11].
Proof.
  destruct (SimilarItems_get_shape sim_items_store 1 2) as (_ & Hlen & _).
  split; [reflexivity|]. split; [lia|]. split; [apply Hlen; lia | reflexivity].
Defined.

(** X21.  A key with exactly one row in the table gets the empty answer from
    either lookup service, just like an unknown key, but without being
    counted as a miss: on a single row [.loc] gives a [Series], and
    [Series.to_dict] has no [orient] argument. *)
Theorem lookup_services_single_row
    (history : HistoryService.History) (sim_items : FeaturesService.SimilarItems)
    (key k : Z) :
  (∀ table r,
     HistoryService._history history = Some table →
     filter (λ r, idx r = key) table = [r] →
     HistoryService.get history key k =
       (HistoryService.count_request history, HistoryService.Answer [] []))
  ∧ (∀ table r,
       FeaturesService._similar_items sim_items = Some table →
       filter (λ r, FeaturesService.item_id_1 r = key) table = [r] →
       FeaturesService.get sim_items key k =
         (FeaturesService.count_request sim_items, FeaturesService.Answer [] [])).
Proof.
  split; intros table r Htable Hrow.
  - unfold HistoryService.get, HistoryService.get_body, Pandas.loc. simpl.
    by rewrite Htable, Hrow.
  - unfold FeaturesService.get, FeaturesService.get_body, Pandas.loc. simpl.
    by rewrite Htable, Hrow.
Qed.

Lemma lookup_services_single_row_witness :
  HistoryService._history history_store = Some history_table
  ∧ filter (λ r, idx r = 8) history_table = [Row 8 1 1]
  ∧ HistoryService.get history_store 8 3 =
      (HistoryService.count_request history_store, HistoryService.Answer [] [])
  ∧ FeaturesService.get sim_items_store 3 3 =
      (FeaturesService.count_request sim_items_store, FeaturesService.Answer [] []).
Proof.
  destruct (lookup_services_single_row history_store sim_items_store 8 3)
    as [Hhistory _].
  destruct (lookup_services_single_row history_store sim_items_store 3 3)
    as [_ Hsimilar].
  split; [reflexivity|]. split; [reflexivity|]. split.
  - apply (Hhistory history_table (Row 8 1 1)); reflexivity.
  - apply (Hsimilar similar_table (FeaturesService.SimRow 3 30 (1 # 1)));
      reflexivity.
Defined.

(** X22.  With the two lookup services answering, every candidate keeps its
    own score: the pool is the list of the pairs of each history track, track
    after track in history order. *)
Theorem running_services_pool_in_order
    (history : HistoryService.History) (sim_items : FeaturesService.SimilarItems)
    (k : Z) (events : list Z) :
  pooled (running_upstream history sim_items) k events =
    concat ((λ t, zip (FeaturesService.a_item_id_2 (FeaturesService.get sim_items t k).2)
                      (FeaturesService.a_track_seq (FeaturesService.get sim_items t k).2))
            <$> events).
Proof.
  rewrite pooled_in_history_order by apply running_aligned.
  f_equal. apply list_fmap_ext. intros _ t _.
  unfold similar_pairs. by rewrite running_similar_items_step.
Qed.

(** X23.  With the two lookup services answering and [k >= 0], the online
    assembly works from at most three history tracks and returns at most
    [3 * k] recommendations. *)
Theorem running_services_online_bound
    (history : HistoryService.History) (sim_items : FeaturesService.SimilarItems)
    (user_id k : Z) :
  0 ≤ k →
  (length (history_events (running_upstream history sim_items) user_id) ≤ 3)%nat
  ∧ ∃ r, recommendations_online (running_upstream history sim_items) user_id k = Ok r
         ∧ Z.of_nat (length r) ≤ 3 * k.
Proof.
  intros Hk.
  assert (length (history_events (running_upstream history sim_items) user_id) ≤ 3)%nat
    as Hevents.
  { rewrite running_history_events.
    pose proof (History_get_length history user_id 3). lia. }
  split; [exact Hevents|].
  rewrite recommendations_online_eq. eexists; split; [done|]. unfold online_recs.
  set (up := running_upstream history sim_items) in *.
  pose proof (length_dedup_ids
    ((sorted_by_score_desc (pooled up k (history_events up user_id))).*1)) as Hdedup.
  rewrite length_fmap in Hdedup.
  pose proof (Permutation_length
    (sorted_by_score_desc_perm (pooled up k (history_events up user_id)))).
  pose proof (pooled_length up k (history_events up user_id)).
  assert (length (fan_out up k (history_events up user_id)).1
          ≤ length (history_events up user_id) * Z.to_nat k)%nat as Hfan.
  { apply fan_out_length. intros t _. subst up.
    rewrite running_similar_items_step. by apply SimilarItems_get_length. }
  nia.
Qed.

Lemma running_services_online_bound_witness :
  0 ≤ 2
  ∧ (length (history_events services 7) ≤ 3)%nat
  ∧ ∃ r, recommendations_online services 7 2 = Ok r ∧ Z.of_nat (length r) ≤ 3 * 2.
Proof.
  split; [lia|].
  apply (running_services_online_bound history_store sim_items_store 7 2). lia.
Defined.

(** X24.  A user the history table does not know and who has no personal
    row gets, from the blended endpoint of a service started by [lifespan],
    the first [k] entries of the default list, deduplicated. *)
Theorem cold_start_gets_default
    (personal default history_rows : list row)
    (history : HistoryService.History) (sim_items : FeaturesService.SimilarItems)
    (user_id k : Z) :
  filter (λ r, idx r = user_id) personal = [] →
  HistoryService._history history = Some history_rows →
  filter (λ r, idx r = user_id) history_rows = [] →
  (recommendations (lifespan_store personal default)
     (running_upstream history sim_items) user_id k).2 =
    Ok (slice_to (dedup_ids (slice_to (track_id <$> default) k)) k).
Proof.
  intros Hpersonal Htable Hrows.
  assert (online_recs (running_upstream history sim_items) user_id k = []) as Honline.
  { unfold online_recs. rewrite running_history_events, History_get_answer.
    by rewrite Htable, Hrows. }
  rewrite recommendations_eq. unfold recommendations_offline.
  rewrite Recommendations_get_cases, lifespan_store_personal, lifespan_store_default.
  rewrite Hpersonal. cbn [snd]. by rewrite Honline, interleaved_nil_r.
Qed.

Lemma cold_start_gets_default_witness :
  filter (λ r, idx r = 1) personal_table = []
  ∧ HistoryService._history history_store = Some history_table
  ∧ filter (λ r, idx r = 1) history_table = []
  ∧ (recommendations (lifespan_store personal_table default_table) services 1 3).2 =
      Ok (slice_to (dedup_ids (slice_to (track_id <$> default_table) 3)) 3).
Proof.
  split; [reflexivity|]. split; [reflexivity|]. split; [reflexivity|].
  apply (cold_start_gets_default personal_table default_table history_table
           history_store sim_items_store 1 3); reflexivity.
Defined.
